(** * Orchestration policies of the agentic data platform examples

    A shallow embedding of the decision logic of the two driver scripts

    - [examples/quickstart/autonomous_pipeline_creation.py]
      (class [AutonomousPipelineCreator]) and
    - [examples/cost-optimization/weekly_review.py]
      (class [WeeklyCostReviewer]),

    followed by the properties of that logic.

    Conventions of the embedding.
    - A Python [str] is a [string]; identifiers and tokens are ASCII, and
      [str.lower] acts on the letters [A]-[Z] only.
    - A Python number (a cost, a saving) is an exact rational [Q]; the
      rounding of binary floating point is outside the model.  Counters
      and lengths are [nat].
    - A [dict] that the code iterates over is an association list in
      insertion order; a [dict] that is only looked up is a [gmap].
    - A call that may raise returns a [result]; code that talks to the
      external agent threads a [World] through a state-and-error monad. *)

From Stdlib Require Import Ascii QArith.
From stdpp Require Import base option list strings gmap.

(** ** Python runtime fragments *)

Module Py.

(** The exceptions that the modelled code can raise or let through. *)
Inductive exn : Type :=
| ZeroDivisionError
| KeyError (key : string)
| AgentError (msg : string).

Inductive result (A : Type) : Type :=
| Ok (a : A)
| Raised (e : exn).
Arguments Ok {A} a.
Arguments Raised {A} e.

(** [c.lower()] for one ASCII character. *)
Definition lower_ascii (c : ascii) : ascii :=
  let n := N_of_ascii c in
  if ((65 <=? n) && (n <=? 90))%N then ascii_of_N (n + 32) else c.

(** [s.lower()] *)
Fixpoint lower (s : string) : string :=
  match s with
  | EmptyString => EmptyString
  | String c s' => String (lower_ascii c) (lower s')
  end.

(** [s.startswith(key)] *)
Fixpoint startswith (key s : string) : bool :=
  match key, s with
  | EmptyString, _ => true
  | String _ _, EmptyString => false
  | String a key', String b s' =>
      if Ascii.eqb a b then startswith key' s' else false
  end.

(** [key in s] for strings: [key] occurs in [s] as a contiguous run. *)
Fixpoint contains (s key : string) : bool :=
  startswith key s ||
  match s with
  | EmptyString => false
  | String _ s' => contains s' key
  end.

(** [s.split(".")[0]]: the segment before the first dot. *)
Fixpoint before_first_dot (s : string) : string :=
  match s with
  | EmptyString => EmptyString
  | String c s' =>
      if Ascii.eqb c "."%char then EmptyString
      else String c (before_first_dot s')
  end.

(** [for key, value in mapping.items(): if key in s: return value]
    followed by [return fallback]. *)
Fixpoint first_match (mapping : list (string * string)) (s fallback : string)
  : string :=
  match mapping with
  | [] => fallback
  | (key, value) :: rest =>
      if contains s key then value else first_match rest s fallback
  end.

(** [enumerate(xs, start)] *)
Fixpoint enumerate_from {A} (start : nat) (xs : list A) : list (nat * A) :=
  match xs with
  | [] => []
  | x :: xs' => (start, x) :: enumerate_from (S start) xs'
  end.

(** [sum(xs)] on numbers: a left-to-right accumulation from [0], in
    exact arithmetic.  Rounding, and with it the way an interpreter's
    [sum] compensates for it on floats, is outside the model. *)
Definition sum (xs : list Q) : Q :=
  fold_left Qplus xs 0%Q.

(** [a / b] on numbers. *)
Definition truediv (a b : Q) : result Q :=
  if Qeq_bool b 0 then Raised ZeroDivisionError else Ok (a / b)%Q.

End Py.

Import Py.

(** ** [autonomous_pipeline_creation.py] *)

Module AutonomousPipelineCreator.

Definition source_mapping : list (string * string) :=
  [ ("sqlserver", "sqlserver");
    ("postgres", "postgresql");
    ("mysql", "mysql");
    ("oracle", "oracle");
    ("cosmosdb", "cosmosdb");
    ("blob", "blob_storage");
    ("adls", "data_lake");
    ("api", "rest_api") ].

Definition _detect_source_type (source_prefix : string) : string :=
  first_match source_mapping (lower source_prefix) "unknown".

Definition dest_mapping : list (string * string) :=
  [ ("datalake", "data_lake");
    ("synapse", "synapse");
    ("databricks", "databricks");
    ("cosmos", "cosmosdb");
    ("sql", "sql_database") ].

Definition _detect_destination_type (dest_prefix : string) : string :=
  first_match dest_mapping (lower dest_prefix) "data_lake".

Definition schedule_mapping : gmap string string :=
  <["monthly" := "0 2 1 * *"]>
  (<["weekly" := "0 2 * * 0"]>
  (<["daily-2am" := "0 2 * * *"]>
  (<["daily" := "0 2 * * *"]>
  (<["hourly" := "0 * * * *"]> ∅)))).

Definition _parse_schedule (schedule : string) : string :=
  default schedule (schedule_mapping !! lower schedule).

(** The kinds that [_analyze_requirements] derives from the two
    identifiers: [source_parts[0]] and [dest_parts[0]] go through the
    detectors. *)
Definition source_type_of (source : string) : string :=
  _detect_source_type (before_first_dot source).

Definition destination_type_of (destination : string) : string :=
  _detect_destination_type (before_first_dot destination).

(** [load_mode] of [_analyze_requirements]. *)
Definition load_mode_of (source_type : string) : string :=
  if bool_decide (source_type ∈ ["sqlserver"; "postgresql"; "mysql"])
  then "incremental" else "full".

End AutonomousPipelineCreator.

Import AutonomousPipelineCreator.

(** ** [weekly_review.py] *)

Module WeeklyCostReviewer.

(** *** Data *)

(** One entry of the list returned by [find_opportunities]. *)
Record Opportunity : Type := {
  title : string;
  monthly_savings : Q;
  impact : string;
  risk_level : string
}.

(** One entry of [cost_breakdown]. *)
Record CostDriver : Type := {
  service : string;
  cost : Q
}.

(** What [cost_agent.analyze_spend] returns. *)
Record CostAnalysis : Type := {
  total_cost : Q;
  analysis_trend : string;
  cost_breakdown : list CostDriver;
  analysis_anomalies : list string
}.

(** What [_analyze_spend] returns. *)
Record SpendAnalysis : Type := {
  total_monthly_cost : Q;
  trend : string;
  top_cost_drivers : list CostDriver;
  anomalies : list string
}.

(** What [cost_agent.apply_optimization] returns: [success] is always
    there, [error] only when the agent supplies one. *)
Record ApplyResult : Type := {
  success : bool;
  error : option string
}.

(** What [_categorize_opportunities] returns. *)
Record Categorized : Type := {
  low_risk : list Opportunity;
  medium_risk : list Opportunity;
  high_risk : list Opportunity
}.

(** What [_execute_optimizations] returns, and the [actions_taken]
    part of the report. *)
Record Results : Type := {
  applied_count : nat;
  pending_count : nat;
  skipped_count : nat;
  actual_savings : Q
}.

Record SpendSummary : Type := {
  summary_total_monthly_cost : Q;
  summary_trend : string;
  summary_top_cost_drivers : list CostDriver
}.

Record OptimizationSummary : Type := {
  opportunities_found : nat;
  total_potential_savings : Q;
  savings_percentage : Q;
  low_risk_count : nat;
  medium_risk_count : nat;
  high_risk_count : nat
}.

(** What [_generate_report] returns. *)
Record Report : Type := {
  date : string;
  environment : string;
  dry_run : bool;
  spend_summary : SpendSummary;
  optimization_summary : OptimizationSummary;
  actions_taken : Results;
  opportunities : list Opportunity;
  report_url : string
}.

(** The part of [AgentConfig] that the reviewer reads. *)
Record AgentConfig : Type := {
  config_environment : string;
  cost_notification_emails : list string
}.

(** *** The outside world *)

(** [CostOptimizerAgent]: an external object with a state of its own.
    Every method may raise instead of returning. *)
Class CostOptimizerAgent (St : Type) : Type := {
  analyze_spend : St → result CostAnalysis * St;
  find_opportunities : St → result (list Opportunity) * St;
  apply_optimization : Opportunity → St → result ApplyResult * St
}.

(** The clock and the message templates.  [_format_slack_message],
    [_format_email] and the subject line of the email only render
    numbers and strings of the report into text; the rendering is left
    open, as are the two readings of [datetime.now()]. *)
Class Rendering : Type := {
  now_isoformat : string;
  now_ymd : string;
  _format_slack_message : Report → string;
  _format_email : Report → string;
  email_subject : Report → string
}.

(** The log lines that show a list entry by entry: the cost drivers
    displayed by [run_weekly_review], and the line that
    [_execute_optimizations] writes for each opportunity.  Headings and
    totals are not kept. *)
Inductive LogLine : Type :=
| LogCostDriver (rank : nat) (service : string) (cost : Q)
| LogApplied (title : string)
| LogFailed (title : string) (error : string)
| LogRequiresApproval (title : string)
| LogMediumRisk (title : string)
| LogHighRisk (title : string).

(** What [send_slack_notification] and [send_email] receive. *)
Inductive Notification : Type :=
| Slack (message : string)
| Email (to : list string) (subject : string) (html : string).

(** Everything a run can change outside its own variables: the agent,
    the [apply_optimization] calls issued so far, the log, and the
    notifications handed to the transports. *)
Record World (St : Type) : Type := {
  agent : St;
  apply_calls : list Opportunity;
  log : list LogLine;
  outbox : list Notification
}.
Arguments agent {St} _.
Arguments apply_calls {St} _.
Arguments log {St} _.
Arguments outbox {St} _.

(** A computation that reads and changes the world and may raise.  The
    world is returned in both cases: what happened before an exception
    stays done. *)
Definition M (St A : Type) : Type := World St → result A * World St.

Definition ret {St A} (a : A) : M St A := λ w, (Ok a, w).

Definition raise {St A} (e : exn) : M St A := λ w, (Raised e, w).

Definition bind {St A B} (m : M St A) (f : A → M St B) : M St B :=
  λ w, match m w with
       | (Ok a, w') => f a w'
       | (Raised e, w') => (Raised e, w')
       end.

Declare Scope review_scope.
Delimit Scope review_scope with review.
Notation "x <- m ;; k" := (bind m (λ x, k))
  (at level 100, m at next level, right associativity) : review_scope.
Notation "m ;;; k" := (bind m (λ _, k))
  (at level 100, right associativity) : review_scope.
Open Scope review_scope.

(** [for x in xs: acc = body(x, acc)] *)
Fixpoint for_each {St A B} (body : A → B → M St B) (xs : list A) (acc : B)
  : M St B :=
  match xs with
  | [] => ret acc
  | x :: xs' => acc' <- body x acc ;; for_each body xs' acc'
  end.

(** [logger.info] of one of the lines that are kept.  The headings and
    totals that the code logs as well are not modelled: the log of a
    world tells which entries were shown, not that nothing else was
    logged. *)
Definition logger_info {St} (line : LogLine) : M St unit :=
  λ w, (Ok tt, {| agent := agent w; apply_calls := apply_calls w;
                  log := log w ++ [line]; outbox := outbox w |}).

(** [await send_slack_notification(...)] and [await send_email(...)]:
    the notification is handed to the transport, which is taken to
    return.  A transport that raises is outside the model. *)
Definition send {St} (n : Notification) : M St unit :=
  λ w, (Ok tt, {| agent := agent w; apply_calls := apply_calls w;
                  log := log w; outbox := outbox w ++ [n] |}).

(** A method call on the agent: the agent moves to its next state
    whether it returns or raises. *)
Definition call_agent {St A} (method : St → result A * St) : M St A :=
  λ w, let '(r, st') := method (agent w) in
       (r, {| agent := st'; apply_calls := apply_calls w;
              log := log w; outbox := outbox w |}).

Definition record_apply_call {St} (opp : Opportunity) : M St unit :=
  λ w, (Ok tt, {| agent := agent w; apply_calls := apply_calls w ++ [opp];
                  log := log w; outbox := outbox w |}).

(** [await self.cost_agent.apply_optimization(opp)] *)
Definition call_apply_optimization {St} `{CostOptimizerAgent St}
    (opp : Opportunity) : M St ApplyResult :=
  record_apply_call opp ;;; call_agent (apply_optimization opp).

(** [result['error']] *)
Definition getitem_error {St} (result : ApplyResult) : M St string :=
  match error result with
  | Some msg => ret msg
  | None => raise (KeyError "error")
  end.

(** [a > b] on numbers. *)
Definition gt (a b : Q) : bool := negb (Qle_bool a b).

(** *** [_analyze_spend] *)

Definition _analyze_spend {St} `{CostOptimizerAgent St} : M St SpendAnalysis :=
  analysis <- call_agent analyze_spend ;;
  ret {| total_monthly_cost := total_cost analysis;
         trend := analysis_trend analysis;
         top_cost_drivers := cost_breakdown analysis;
         anomalies := analysis_anomalies analysis |}.

(** *** [_categorize_opportunities] *)

(** The body of the loop: one [append] to one of the three lists. *)
Definition categorize_one (categorized : Categorized) (opp : Opportunity)
  : Categorized :=
  let risk := risk_level opp in
  if decide (risk = "low") then
    {| low_risk := low_risk categorized ++ [opp];
       medium_risk := medium_risk categorized;
       high_risk := high_risk categorized |}
  else if decide (risk = "medium") then
    {| low_risk := low_risk categorized;
       medium_risk := medium_risk categorized ++ [opp];
       high_risk := high_risk categorized |}
  else
    {| low_risk := low_risk categorized;
       medium_risk := medium_risk categorized;
       high_risk := high_risk categorized ++ [opp] |}.

Definition _categorize_opportunities (opportunities : list Opportunity)
  : Categorized :=
  fold_left categorize_one opportunities
    {| low_risk := []; medium_risk := []; high_risk := [] |}.

(** *** [_execute_optimizations] *)

(** [self.config.environment != "prod" and auto_approve_nonprod] *)
Definition auto_apply (config : AgentConfig) (auto_approve_nonprod : bool)
  : bool :=
  bool_decide (config_environment config ≠ "prod") && auto_approve_nonprod.

(** The body of the loop over [categorized["low_risk"]]. *)
Definition low_risk_body {St} `{CostOptimizerAgent St}
    (config : AgentConfig) (auto_approve_nonprod : bool)
    (opp : Opportunity) (acc : Results) : M St Results :=
  if auto_apply config auto_approve_nonprod then
    result <- call_apply_optimization opp ;;
    if success result then
      logger_info (LogApplied (title opp)) ;;;
      ret {| applied_count := applied_count acc + 1;
             pending_count := pending_count acc;
             skipped_count := skipped_count acc;
             actual_savings := actual_savings acc + monthly_savings opp |}
    else
      reason <- getitem_error result ;;
      logger_info (LogFailed (title opp) reason) ;;;
      ret {| applied_count := applied_count acc;
             pending_count := pending_count acc;
             skipped_count := skipped_count acc + 1;
             actual_savings := actual_savings acc |}
  else
    logger_info (LogRequiresApproval (title opp)) ;;;
    ret {| applied_count := applied_count acc;
           pending_count := pending_count acc + 1;
           skipped_count := skipped_count acc;
           actual_savings := actual_savings acc |}.

(** The body of the loops over [categorized["medium_risk"]] and
    [categorized["high_risk"]], which differ in the line they log. *)
Definition pending_body {St} (line : string → LogLine)
    (opp : Opportunity) (acc : Results) : M St Results :=
  logger_info (line (title opp)) ;;;
  ret {| applied_count := applied_count acc;
         pending_count := pending_count acc + 1;
         skipped_count := skipped_count acc;
         actual_savings := actual_savings acc |}.

Definition no_results : Results :=
  {| applied_count := 0; pending_count := 0; skipped_count := 0;
     actual_savings := 0 |}.

Definition _execute_optimizations {St} `{CostOptimizerAgent St}
    (config : AgentConfig) (categorized : Categorized)
    (auto_approve_nonprod : bool) : M St Results :=
  acc <- for_each (low_risk_body config auto_approve_nonprod)
           (low_risk categorized) no_results ;;
  acc <- for_each (pending_body LogMediumRisk) (medium_risk categorized) acc ;;
  acc <- for_each (pending_body LogHighRisk) (high_risk categorized) acc ;;
  ret acc.

(** *** [_generate_report] *)

Definition _generate_report `{Rendering}
    (config : AgentConfig) (spend_analysis : SpendAnalysis)
    (opportunities : list Opportunity) (categorized : Categorized)
    (results : Results) (dry_run : bool) : result Report :=
  let total_potential_savings := sum (monthly_savings <$> opportunities) in
  match truediv total_potential_savings (total_monthly_cost spend_analysis) with
  | Raised e => Raised e
  | Ok quotient =>
      let savings_percentage := (quotient * 100)%Q in
      Ok {| date := now_isoformat;
            environment := config_environment config;
            dry_run := dry_run;
            spend_summary :=
              {| summary_total_monthly_cost := total_monthly_cost spend_analysis;
                 summary_trend := trend spend_analysis;
                 summary_top_cost_drivers :=
                   take 5 (top_cost_drivers spend_analysis) |};
            optimization_summary :=
              {| opportunities_found := length opportunities;
                 total_potential_savings := total_potential_savings;
                 savings_percentage := savings_percentage;
                 low_risk_count := length (low_risk categorized);
                 medium_risk_count := length (medium_risk categorized);
                 high_risk_count := length (high_risk categorized) |};
            actions_taken :=
              {| applied_count := applied_count results;
                 pending_count := pending_count results;
                 skipped_count := skipped_count results;
                 actual_savings := actual_savings results |};
            opportunities := opportunities;
            report_url :=
              "https://portal.azure.com/cost-reports/" +:+ now_ymd |}
  end.

(** *** [_send_notifications] *)

Definition _send_notifications {St} `{Rendering}
    (config : AgentConfig) (report : Report) : M St unit :=
  let slack_message := _format_slack_message report in
  send (Slack slack_message) ;;;
  if gt (total_potential_savings (optimization_summary report)) 1000 then
    let email_html := _format_email report in
    send (Email (cost_notification_emails config) (email_subject report)
            email_html)
  else ret tt.

(** *** [run_weekly_review] *)

Definition lift {St A} (r : result A) : M St A :=
  match r with
  | Ok a => ret a
  | Raised e => raise e
  end.

(** [for i, driver in enumerate(spend_analysis['top_cost_drivers'][:5], 1)]
    with its one log line, in step 1 of [run_weekly_review]. *)
Definition log_top_cost_drivers {St} (spend_analysis : SpendAnalysis)
  : M St unit :=
  for_each (λ '(i, driver) _,
              logger_info (LogCostDriver i (service driver) (cost driver)))
    (enumerate_from 1 (take 5 (top_cost_drivers spend_analysis))) tt.

Definition run_weekly_review {St} `{CostOptimizerAgent St} `{Rendering}
    (config : AgentConfig) (dry_run auto_approve_nonprod : bool)
  : M St Report :=
  spend_analysis <- _analyze_spend ;;
  log_top_cost_drivers spend_analysis ;;;
  opportunities <- call_agent find_opportunities ;;
  let categorized := _categorize_opportunities opportunities in
  results <- (if negb dry_run
              then _execute_optimizations config categorized
                     auto_approve_nonprod
              else ret no_results) ;;
  report <- lift (_generate_report config spend_analysis opportunities
                    categorized results dry_run) ;;
  _send_notifications config report ;;;
  ret report.

End WeeklyCostReviewer.

Import WeeklyCostReviewer.

(** ** A scripted agent and a plain rendering

    Concrete collaborators on which the definitions above can be run. *)

Module Scripted.

(** The agent answers from a script: one fixed answer for the spend
    analysis, one for the discovery, and a list of answers handed out
    one per [apply_optimization] call; when the list is used up it
    reports success. *)
Record Script : Type := {
  spend : result CostAnalysis;
  found : result (list Opportunity);
  replies : list (result ApplyResult)
}.

Definition succeeded : ApplyResult := {| success := true; error := None |}.

Definition failed (reason : string) : ApplyResult :=
  {| success := false; error := Some reason |}.


Definition next_reply (opp : Opportunity) (s : Script)
  : result ApplyResult * Script :=
  match replies s with
  | [] => (Ok succeeded, s)
  | r :: rest =>
      (r, {| spend := spend s; found := found s; replies := rest |})
  end.

#[export] Instance scripted_agent : CostOptimizerAgent Script := {
  analyze_spend := λ s, (spend s, s);
  find_opportunities := λ s, (found s, s);
  apply_optimization := next_reply
}.

#[export] Instance plain_rendering : Rendering := {
  now_isoformat := "2024-01-01T00:00:00";
  now_ymd := "2024-01-01";
  _format_slack_message := λ report, "report for " +:+ environment report;
  _format_email := λ report, "<html>" +:+ environment report +:+ "</html>";
  email_subject := λ _, "Cost Optimization Review"
}.

Definition start (s : Script) : World Script :=
  {| agent := s; apply_calls := []; log := []; outbox := [] |}.

Definition opp (name : string) (savings : Q) (risk : string) : Opportunity :=
  {| title := name; monthly_savings := savings; impact := "none";
     risk_level := risk |}.

Definition driver (n : nat) : CostDriver :=
  {| service := "service"; cost := inject_Z (Z.of_nat n) |}.

Definition analysis (total : Q) (drivers : list CostDriver) : CostAnalysis :=
  {| total_cost := total; analysis_trend := "stable";
     cost_breakdown := drivers; analysis_anomalies := [] |}.

Definition dev : AgentConfig :=
  {| config_environment := "dev"; cost_notification_emails := ["ops"] |}.

Definition prod : AgentConfig :=
  {| config_environment := "prod"; cost_notification_emails := ["ops"] |}.

Definition six_drivers : list CostDriver := driver <$> seq 0 6.

Definition spend_of (total : Q) (drivers : list CostDriver) : SpendAnalysis :=
  {| total_monthly_cost := total; trend := "stable";
     top_cost_drivers := drivers; anomalies := [] |}.

(** Four opportunities, two of them low-risk, and an agent whose first
    answer to [apply_optimization] is a failure with a reason, a raised
    exception, or a failure without a reason. *)
Definition four_found : list Opportunity :=
  [opp "a" 100 "low"; opp "d" 2000 "low"; opp "b" 50 "medium";
   opp "c" 10 "unknown"].

Definition script_with (first_reply : result ApplyResult) : Script :=
  {| spend := Ok (analysis 1000 six_drivers);
     found := Ok four_found;
     replies := [first_reply] |}.

Definition script_used_up : Script :=
  {| spend := Ok (analysis 1000 six_drivers);
     found := Ok four_found;
     replies := [] |}.

End Scripted.

Import (hints) Scripted.


(** ** Readings of the specification *)

Module Reading.

(** "Longest match wins": [kind] is the value of a token of [mapping]
    that occurs in [s] and is at least as long as every other token
    of [mapping] that occurs in [s]; [fallback] if none occurs. *)
Definition longest_match (mapping : list (string * string))
    (s fallback kind : string) : Prop :=
  (∃ key value,
      (key, value) ∈ mapping ∧ contains s key = true ∧
      (∀ key' value', (key', value') ∈ mapping → contains s key' = true →
                      String.length key' ≤ String.length key) ∧
      kind = value)
  ∨ ((∀ key value, (key, value) ∈ mapping → contains s key = false) ∧
     kind = fallback).

(** "First match wins": [kind] is the value of the first entry of
    [mapping], in the order of the table, whose token occurs in [s];
    [fallback] if none occurs. *)
Definition first_in_table (mapping : list (string * string))
    (s fallback kind : string) : Prop :=
  (∃ before key value after,
      mapping = before ++ (key, value) :: after ∧
      contains s key = true ∧
      Forall (λ entry, contains s entry.1 = false) before ∧
      kind = value)
  ∨ (Forall (λ entry, contains s entry.1 = false) mapping ∧
     kind = fallback).

(** The number of fields of a cron expression: [len(s.split(" "))]. *)
Fixpoint fields (s : string) : nat :=
  match s with
  | EmptyString => 1
  | String c s' => if Ascii.eqb c " "%char then S (fields s') else fields s'
  end.

(** The three conditions on the risk level of an opportunity. *)
Definition is_low (opp : Opportunity) : Prop := risk_level opp = "low".
Definition is_medium (opp : Opportunity) : Prop := risk_level opp = "medium".
Definition is_other (opp : Opportunity) : Prop :=
  risk_level opp ≠ "low" ∧ risk_level opp ≠ "medium".

#[export] Instance is_low_dec opp : Decision (is_low opp).
Proof. unfold is_low. apply _. Defined.
#[export] Instance is_medium_dec opp : Decision (is_medium opp).
Proof. unfold is_medium. apply _. Defined.
#[export] Instance is_other_dec opp : Decision (is_other opp).
Proof. unfold is_other. apply _. Defined.

(** The world after some more lines have been logged. *)
Definition logged {St} (lines : list LogLine) (w : World St) : World St :=
  {| agent := agent w; apply_calls := apply_calls w;
     log := log w ++ lines; outbox := outbox w |}.

(** The world after some more notifications have been handed over. *)
Definition notified {St} (sent : list Notification) (w : World St) : World St :=
  {| agent := agent w; apply_calls := apply_calls w;
     log := log w; outbox := outbox w ++ sent |}.

(** Counters with [n] more pending, or [n] more skipped, items. *)
Definition more_pending (n : nat) (acc : Results) : Results :=
  {| applied_count := applied_count acc;
     pending_count := pending_count acc + n;
     skipped_count := skipped_count acc;
     actual_savings := actual_savings acc |}.

Definition more_skipped (n : nat) (acc : Results) : Results :=
  {| applied_count := applied_count acc;
     pending_count := pending_count acc;
     skipped_count := skipped_count acc + n;
     actual_savings := actual_savings acc |}.

Definition more_applied (saving : Q) (acc : Results) : Results :=
  {| applied_count := applied_count acc + 1;
     pending_count := pending_count acc;
     skipped_count := skipped_count acc;
     actual_savings := (actual_savings acc + saving)%Q |}.

(** The world after [apply_optimization] was called on [opp] and left
    the agent in [st']. *)
Definition called {St} (opp : Opportunity) (st' : St) (w : World St)
  : World St :=
  {| agent := st'; apply_calls := apply_calls w ++ [opp];
     log := log w; outbox := outbox w |}.

(** The decisions of the approval policy, as they show in what the body
    of a loop does to one opportunity.

    [Apply]: [apply_optimization] is called for the item on the agent as
    the body found it, and the agent is left as that call leaves it; what
    is counted follows the answer.  A result that reports success counts
    the item as applied and adds its [monthly_savings]; a result without
    success that carries an error entry counts it as skipped; a call that
    raises, and a result without success and without error entry, end the
    body with the exception.  No item is counted as pending.

    [Pending]: the item is counted as pending, and the agent is neither
    called nor changed. *)
Inductive Decision : Type := Apply | Pending.



(** The agent answers every call made for the list [low], one after the
    other from the state [st]: it returns, and a result without success
    carries an error entry. *)
Fixpoint all_answered {St} `{CostOptimizerAgent St}
    (low : list Opportunity) (st : St) : bool :=
  match low with
  | [] => true
  | opp :: rest =>
      match apply_optimization opp st with
      | (Ok result, st') =>
          (success result || bool_decide (is_Some (error result)))
          && all_answered rest st'
      | (Raised _, _) => false
      end
  end.

(** The opportunities of [low] whose call reported success, when the
    calls are made one after the other from the state [st]; nothing is
    called after a call that raised or that failed without an error
    entry. *)
Fixpoint reported_success {St} `{CostOptimizerAgent St}
    (low : list Opportunity) (st : St) : list Opportunity :=
  match low with
  | [] => []
  | opp :: rest =>
      match apply_optimization opp st with
      | (Ok result, st') =>
          if success result then opp :: reported_success rest st'
          else if bool_decide (is_Some (error result))
               then reported_success rest st'
               else []
      | (Raised _, _) => []
      end
  end.

(** The opportunities that a run of [_execute_optimizations] counts as
    applied. *)
Definition counted_as_applied {St} `{CostOptimizerAgent St}
    (config : AgentConfig) (auto_approve_nonprod : bool)
    (categorized : Categorized) (st : St) : list Opportunity :=
  if auto_apply config auto_approve_nonprod
  then reported_success (low_risk categorized) st
  else [].


End Reading.

Import Reading.

(** ** [autonomous_pipeline_creation.py]: the orchestration *)

Module PipelineCreation.

(** *** Values and mappings *)

(** The values that travel in task descriptions and task results. *)
#[warnings="-register-all"] Inductive Value : Type :=
| VNone
| VBool (b : bool)
| VStr (s : string)
| VNum (q : Q)
| VList (items : list Value)
| VDict (entries : list (string * Value)).

(** A task description and a task result are mappings from keys to
    values. *)
Abbreviation Mapping := (gmap string Value).

(** [bool(v)] *)
Definition truthy (v : Value) : bool :=
  match v with
  | VNone => false
  | VBool b => b
  | VStr s => negb (bool_decide (s = ""))
  | VNum q => negb (Qeq_bool q 0)
  | VList items => negb (bool_decide (items = []))
  | VDict entries => negb (bool_decide (entries = []))
  end.

(** [d[key]] *)
Definition getitem (d : Mapping) (key : string) : result Value :=
  match d !! key with
  | Some v => Ok v
  | None => Raised (KeyError key)
  end.

(** *** [_determine_resources] *)

Definition _determine_resources (source_type destination_type : string)
  : list string :=
  let resources := ["data_factory"; "storage_account"] in
  let resources :=
    if decide (destination_type = "synapse")
    then resources ++ ["synapse_workspace"]
    else if decide (destination_type = "databricks")
         then resources ++ ["databricks_workspace"]
         else resources in
  let resources :=
    if bool_decide (source_type ∈ ["sqlserver"; "postgresql"; "mysql"])
    then resources ++ ["integration_runtime"]
    else resources in
  resources.

(** *** The outside world *)

(** [SupervisorAgent]: an external object with a state of its own;
    [execute_task] may raise instead of returning. *)
Class SupervisorAgent (St : Type) : Type := {
  execute_task : string → Mapping → St → result Mapping * St
}.

(** [track_workflow]: the duration that the workflow object reports. *)
Class Tracking : Type := {
  workflow_duration : Value
}.

(** A log line that shows data: the text around the data, and the data.
    Lines of fixed text are not kept. *)
Inductive LogLine : Type :=
| Line (text : string) (shown : list Value).

(** One call of [execute_task]: the agent, the task, and what came
    back. *)
Record Dispatch : Type := {
  to_agent : string;
  task : Mapping;
  reply : result Mapping
}.

(** Everything a run can change outside its own variables: the
    supervisor, the calls of [execute_task] so far, and the log. *)
Record World (St : Type) : Type := {
  supervisor : St;
  dispatched : list Dispatch;
  log : list LogLine
}.
Arguments supervisor {St} _.
Arguments dispatched {St} _.
Arguments log {St} _.

(** A computation that reads and changes the world and may raise. *)
Definition M (St A : Type) : Type := World St → result A * World St.

Definition ret {St A} (a : A) : M St A := λ w, (Ok a, w).

Definition raise {St A} (e : exn) : M St A := λ w, (Raised e, w).

Definition bind {St A B} (m : M St A) (f : A → M St B) : M St B :=
  λ w, match m w with
       | (Ok a, w') => f a w'
       | (Raised e, w') => (Raised e, w')
       end.

Declare Scope pipeline_scope.
Delimit Scope pipeline_scope with pipeline.
Notation "x <- m ;; k" := (bind m (λ x, k))
  (at level 100, m at next level, right associativity) : pipeline_scope.
Notation "m ;;; k" := (bind m (λ _, k))
  (at level 100, right associativity) : pipeline_scope.
Open Scope pipeline_scope.

Definition lift {St A} (r : result A) : M St A :=
  match r with
  | Ok a => ret a
  | Raised e => raise e
  end.

Definition logger_info {St} (text : string) (shown : list Value) : M St unit :=
  λ w, (Ok tt, {| supervisor := supervisor w; dispatched := dispatched w;
                  log := log w ++ [Line text shown] |}).

(** [await self.supervisor.execute_task(agent=..., task=...)]: the call
    is on record whether the supervisor returns or raises. *)
Definition dispatch {St} `{SupervisorAgent St} (agent : string) (task : Mapping)
  : M St Mapping :=
  λ w, let '(r, st') := execute_task agent task (supervisor w) in
       (r, {| supervisor := st';
              dispatched :=
                dispatched w
                ++ [{| to_agent := agent; task := task; reply := r |}];
              log := log w |}).

(** *** [_analyze_requirements] *)

Record Requirements : Type := {
  source_type : string;
  destination_type : string;
  load_mode : string;
  watermark_column : Value;
  schedule_expression : string;
  required_resources : list string
}.

Definition _analyze_requirements {St} `{SupervisorAgent St}
    (source destination schedule : string) : M St Requirements :=
  let source_type := _detect_source_type (before_first_dot source) in
  let destination_type := _detect_destination_type (before_first_dot destination) in
  let load_mode :=
    if bool_decide (source_type ∈ ["sqlserver"; "postgresql"; "mysql"])
    then "incremental" else "full" in
  watermark_column <-
    (if decide (load_mode = "incremental") then
       result <- dispatch "pipeline"
                   {[ "action" := VStr "detect_watermark_column";
                      "source" := VStr source ]} ;;
       ret (default (VStr "modified_date") (result !! "watermark_column"))
     else ret VNone) ;;
  let schedule_expression := _parse_schedule schedule in
  let required_resources := _determine_resources source_type destination_type in
  ret {| source_type := source_type;
         destination_type := destination_type;
         load_mode := load_mode;
         watermark_column := watermark_column;
         schedule_expression := schedule_expression;
         required_resources := required_resources |}.

(** *** [create_pipeline] *)

(** What [create_pipeline] returns. *)
Record Created : Type := {
  pipeline_id : Value;
  pipeline_name : Value;
  status : string;
  infrastructure : Mapping;
  quality : Mapping;
  monitoring : Mapping;
  created_workflow_duration : Value
}.

Definition create_pipeline {St} `{SupervisorAgent St} `{Tracking}
    (config : AgentConfig) (source destination schedule : string)
    (quality_checks cost_optimize : bool) : M St Created :=
  logger_info "Source" [VStr source] ;;;
  logger_info "Destination" [VStr destination] ;;;
  logger_info "Schedule" [VStr schedule] ;;;
  (* Step 1: analyze requirements *)
  requirements <- _analyze_requirements source destination schedule ;;
  logger_info "Source" [VStr (source_type requirements)] ;;;
  logger_info "Destination" [VStr (destination_type requirements)] ;;;
  logger_info "Mode" [VStr (load_mode requirements)] ;;;
  logger_info "Schedule" [VStr (schedule_expression requirements)] ;;;
  (* Step 2: provision infrastructure *)
  infra_result <- dispatch "infrastructure"
    {[ "action" := VStr "provision";
       "resources" := VList (VStr <$> required_resources requirements);
       "environment" := VStr (config_environment config);
       "estimate_cost" := VBool true ]} ;;
  resources_created <- lift (getitem infra_result "resources_created") ;;
  logger_info "resources created" [resources_created] ;;;
  estimated <- lift (getitem infra_result "estimated_monthly_cost") ;;
  logger_info "Estimated cost" [estimated] ;;;
  (* Step 3: create pipeline *)
  data_factory_id <- lift (getitem infra_result "data_factory_id") ;;
  pipeline_result <- dispatch "pipeline"
    {[ "action" := VStr "create";
       "source" := VStr source;
       "destination" := VStr destination;
       "mode" := VStr (load_mode requirements);
       "watermark_column" := watermark_column requirements;
       "schedule" := VStr (schedule_expression requirements);
       "data_factory_id" := data_factory_id ]} ;;
  name <- lift (getitem pipeline_result "pipeline_name") ;;
  logger_info "Pipeline created" [name] ;;;
  (* Step 4: data quality validations *)
  quality_result <-
    (if quality_checks then
       id <- lift (getitem pipeline_result "pipeline_id") ;;
       quality_result <- dispatch "data-quality"
         {[ "action" := VStr "create_validations";
            "source" := VStr source;
            "pipeline_id" := id;
            "auto_profile" := VBool true;
            "validation_types" :=
              VList [VStr "uniqueness"; VStr "completeness";
                     VStr "freshness"; VStr "range"] ]} ;;
       rules <- lift (getitem quality_result "rules_created") ;;
       logger_info "validation rules created" [rules] ;;;
       ret quality_result
     else ret {[ "rules_created" := VNum 0 ]}) ;;
  (* Step 5: deploy *)
  id <- lift (getitem pipeline_result "pipeline_id") ;;
  deployment_result <- dispatch "deployment"
    {[ "action" := VStr "deploy";
       "pipeline_id" := id;
       "environment" := VStr "production";
       "run_smoke_test" := VBool true;
       "require_approval" :=
         VBool (bool_decide (config_environment config = "prod")) ]} ;;
  smoke <- lift (getitem deployment_result "smoke_test_passed") ;;
  logger_info "Smoke test"
    [VStr (if truthy smoke then "passed" else "failed")] ;;;
  (* Step 6: monitoring *)
  id <- lift (getitem pipeline_result "pipeline_id") ;;
  monitoring_result <- dispatch "monitoring"
    {[ "action" := VStr "setup_monitoring";
       "pipeline_id" := id;
       "alerts" :=
         VList [VDict [("type", VStr "pipeline_failure"); ("severity", VStr "high")];
                VDict [("type", VStr "data_quality_breach"); ("severity", VStr "medium")];
                VDict [("type", VStr "cost_anomaly"); ("severity", VStr "low")]];
       "create_dashboard" := VBool true ]} ;;
  alerts <- lift (getitem monitoring_result "alerts_created") ;;
  logger_info "alerts configured" [alerts] ;;;
  (* Cost optimization (optional) *)
  (if cost_optimize then
     id <- lift (getitem pipeline_result "pipeline_id") ;;
     cost_result <- dispatch "cost-optimizer"
       {[ "action" := VStr "optimize_pipeline";
          "pipeline_id" := id;
          "apply_recommendations" := VBool true ]} ;;
     if truthy (default VNone (cost_result !! "savings_found")) then
       saved <- lift (getitem cost_result "monthly_savings") ;;
       logger_info "Optimizations applied" [saved]
     else ret tt
   else ret tt) ;;;
  (* Summary *)
  name <- lift (getitem pipeline_result "pipeline_name") ;;
  logger_info "Pipeline ID" [name] ;;;
  next_run <- lift (getitem pipeline_result "next_run_time") ;;
  logger_info "Next Run" [next_run] ;;;
  estimated <- lift (getitem infra_result "estimated_monthly_cost") ;;
  logger_info "Estimated Monthly Cost" [estimated] ;;;
  rules <- lift (getitem quality_result "rules_created") ;;
  logger_info "Data Quality Rules" [rules] ;;;
  dashboard <- lift (getitem monitoring_result "dashboard_url") ;;
  logger_info "Monitoring Dashboard" [dashboard] ;;;
  logger_info "Total Time" [workflow_duration] ;;;
  id <- lift (getitem pipeline_result "pipeline_id") ;;
  name <- lift (getitem pipeline_result "pipeline_name") ;;
  ret {| pipeline_id := id;
         pipeline_name := name;
         status := "active";
         infrastructure := infra_result;
         quality := quality_result;
         monitoring := monitoring_result;
         created_workflow_duration := workflow_duration |}.

End PipelineCreation.

(** ** Readings of the pipeline creator *)

Module PipelineReading.

Import PipelineCreation.

(** The task asks for the detection of the watermark column. *)
Definition asks_watermark (task : Mapping) : bool :=
  match task !! "action" with
  | Some (VStr action) => bool_decide (action = "detect_watermark_column")
  | _ => false
  end.

(** The source kind is one of the relational databases. *)
Definition incremental (source : string) : bool :=
  bool_decide (source_type_of source ∈ ["sqlserver"; "postgresql"; "mysql"]).

(** The agents that a run of [create_pipeline] asks, in order, when every
    step goes through. *)
Definition plan (source : string) (quality_checks cost_optimize : bool)
  : list string :=
  (if incremental source then ["pipeline"] else [])
  ++ ["infrastructure"; "pipeline"]
  ++ (if quality_checks then ["data-quality"] else [])
  ++ ["deployment"; "monitoring"]
  ++ (if cost_optimize then ["cost-optimizer"] else []).

(** The supervisor returned from this call. *)
Definition returned (d : Dispatch) : bool :=
  match reply d with
  | Ok _ => true
  | Raised _ => false
  end.

(** The call went to [agent]. *)
Definition asked (agent : string) (d : Dispatch) : bool :=
  bool_decide (to_agent d = agent).

(** The call asks the pipeline agent for the creation of the pipeline. *)
Definition is_create (d : Dispatch) : bool :=
  match task d !! "action" with
  | Some (VStr action) => bool_decide (action = "create")
  | _ => false
  end.

(** The result of the first call among [calls] that satisfies [which]
    and returned, and the value under [key] in it. *)
Fixpoint result_of (which : Dispatch → bool) (calls : list Dispatch)
  : option Mapping :=
  match calls with
  | [] => None
  | d :: rest =>
      match reply d with
      | Ok result => if which d then Some result else result_of which rest
      | Raised _ => result_of which rest
      end
  end.

Definition result_key (which : Dispatch → bool) (key : string)
    (calls : list Dispatch) : option Value :=
  result_of which calls ≫= (λ result, result !! key).

(** The calls [done] of a run with outcome [r] follow the plan: the
    agents asked are the first so many of the plan; every call but the
    last returned; a run that returns has asked the whole plan and got
    every result; when the last call raised, the run raises the same. *)
Definition follows_plan {A} (planned : list string) (done : list Dispatch)
    (r : result A) : Prop :=
  to_agent <$> done `prefix_of` planned
  ∧ Forall (λ d, returned d = true) (removelast done)
  ∧ (∀ a, r = Ok a →
          to_agent <$> done = planned ∧ Forall (λ d, returned d = true) done)
  ∧ (∀ d e, last done = Some d → reply d = Raised e → r = Raised e).

(** Every task for the deployment agent asks for a deployment to
    [production] with a smoke test, and for an approval exactly in the
    environment [prod]. *)
Definition deployment_asked (config : AgentConfig) (done : list Dispatch)
  : Prop :=
  Forall (λ d,
            to_agent d = "deployment" →
            task d !! "action" = Some (VStr "deploy")
            ∧ task d !! "environment" = Some (VStr "production")
            ∧ task d !! "run_smoke_test" = Some (VBool true)
            ∧ task d !! "require_approval"
              = Some (VBool (bool_decide (config_environment config = "prod"))))
    done.

(** Every task for the data quality, the deployment, the monitoring and
    the cost optimizer carries the pipeline id that the creation
    returned, and the creation task carries the data factory id that the
    provisioning returned. *)
Definition ids_threaded (done : list Dispatch) : Prop :=
  Forall (λ d,
            (to_agent d ∈ ["data-quality"; "deployment"; "monitoring";
                           "cost-optimizer"] →
             is_Some (task d !! "pipeline_id")
             ∧ task d !! "pipeline_id" = result_key is_create "pipeline_id" done)
            ∧ (is_create d = true →
               to_agent d = "pipeline"
               ∧ is_Some (task d !! "data_factory_id")
               ∧ task d !! "data_factory_id"
                 = result_key (asked "infrastructure") "data_factory_id" done))
    done.

(** What a returned run reports: always active, with the id and the
    name that the creation returned, the results of the provisioning and
    of the monitoring, and for the quality the result of the data quality
    agent or, when the quality checks are off, a count of zero rules. *)
Definition summarized (quality_checks : bool) (done : list Dispatch)
    (created : Created) : Prop :=
  status created = "active"
  ∧ result_key is_create "pipeline_id" done = Some (pipeline_id created)
  ∧ result_key is_create "pipeline_name" done = Some (pipeline_name created)
  ∧ result_of (asked "infrastructure") done = Some (infrastructure created)
  ∧ result_of (asked "monitoring") done = Some (monitoring created)
  ∧ (if quality_checks
     then result_of (asked "data-quality") done = Some (quality created)
     else quality created = {[ "rules_created" := VNum 0 ]}).

(** The keys that [create_pipeline] reads from a result, by the agent
    asked and the action of the task. *)
Definition keys_read (agent : string) (task : Mapping) : list string :=
  if asks_watermark task then []
  else if decide (agent = "infrastructure") then
    ["resources_created"; "estimated_monthly_cost"; "data_factory_id"]
  else if decide (agent = "pipeline") then
    ["pipeline_name"; "pipeline_id"; "next_run_time"]
  else if decide (agent = "data-quality") then ["rules_created"]
  else if decide (agent = "deployment") then ["smoke_test_passed"]
  else if decide (agent = "monitoring") then
    ["alerts_created"; "dashboard_url"]
  else [].

(** A result that [create_pipeline] can read through: the keys read are
    there, and a result of the cost optimizer that announces savings says
    how much. *)
Definition readable (agent : string) (task result : Mapping) : Prop :=
  Forall (λ key, is_Some (result !! key)) (keys_read agent task)
  ∧ (agent = "cost-optimizer" →
     truthy (default VNone (result !! "savings_found")) = true →
     is_Some (result !! "monthly_savings")).

(** The supervisor returns from every call, with a result that
    [create_pipeline] can read through. *)
Definition reliable (St : Type) `{SupervisorAgent St} : Prop :=
  ∀ agent task st,
    ∃ result st',
      execute_task agent task st = (Ok result, st')
      ∧ readable agent task result.

(** [post] holds of the outcome of [m] from [w]. *)
Definition wp {St A} (m : M St A) (w : World St)
    (post : result A → World St → Prop) : Prop :=
  post (m w).1 (m w).2.

(** A run with outcome [r] that raised although the supervisor returned
    from every call made: the exception is the [KeyError] of a key that
    the result of one of the calls does not hold. *)
Definition raised_on_missing_key (done : list Dispatch) (r : result Created)
  : Prop :=
  ∀ e, r = Raised e → Forall (λ d, returned d = true) done →
       ∃ key, e = KeyError key
              ∧ Exists (λ d, ∃ result, reply d = Ok result
                                       ∧ result !! key = None) done.

(** Everything that holds of the calls [done] of a run of
    [create_pipeline] with outcome [r]. *)
Definition run_shape (config : AgentConfig) (source : string)
    (quality_checks cost_optimize : bool) (done : list Dispatch)
    (r : result Created) : Prop :=
  follows_plan (plan source quality_checks cost_optimize) done r
  ∧ deployment_asked config done
  ∧ ids_threaded done
  ∧ (∀ created, r = Ok created →
        summarized quality_checks done created
        ∧ Forall (λ d, ∀ result, reply d = Ok result →
                       readable (to_agent d) (task d) result) done)
  ∧ raised_on_missing_key done r.

End PipelineReading.

Import PipelineReading.

(** ** A scripted supervisor *)

Module ScriptedSupervisor.

Import PipelineCreation PipelineReading.

(** A result that holds every key that [create_pipeline] reads from the
    agent asked. *)
Definition full_reply (agent : string) (task : Mapping) : Mapping :=
  if asks_watermark task then {[ "watermark_column" := VStr "updated_at" ]}
  else if decide (agent = "infrastructure") then
    {[ "resources_created" := VNum 3;
       "estimated_monthly_cost" := VNum 120;
       "data_factory_id" := VStr "df-1" ]}
  else if decide (agent = "pipeline") then
    {[ "pipeline_id" := VStr "p-1";
       "pipeline_name" := VStr "sales_orders";
       "next_run_time" := VStr "02:00" ]}
  else if decide (agent = "data-quality") then
    {[ "rules_created" := VNum 12 ]}
  else if decide (agent = "deployment") then
    {[ "smoke_test_passed" := VBool false ]}
  else if decide (agent = "monitoring") then
    {[ "alerts_created" := VNum 3;
       "dashboard_url" := VStr "https://dashboards/p-1" ]}
  else if decide (agent = "cost-optimizer") then
    {[ "savings_found" := VBool true; "monthly_savings" := VNum 5 ]}
  else ∅.

(** The supervisor answers from a script, one entry per call: [None]
    for the full result, [Some r] for [r] instead; when the script is
    used up it gives the full result. *)
Definition next_reply (agent : string) (task : Mapping)
    (script : list (option (result Mapping)))
  : result Mapping * list (option (result Mapping)) :=
  match script with
  | [] => (Ok (full_reply agent task), [])
  | None :: rest => (Ok (full_reply agent task), rest)
  | Some r :: rest => (r, rest)
  end.

#[export] Instance scripted_supervisor
  : SupervisorAgent (list (option (result Mapping))) := {
  execute_task := next_reply
}.

#[export] Instance one_hour : Tracking := {
  workflow_duration := VStr "1:00:00"
}.

Definition start (script : list (option (result Mapping)))
  : World (list (option (result Mapping))) :=
  {| supervisor := script; dispatched := []; log := [] |}.

(** A supervisor without a state that always gives the full result. *)
#[export] Instance steady_supervisor : SupervisorAgent unit := {
  execute_task := λ agent task st, (Ok (full_reply agent task), st)
}.

(** A script in which the sixth call, the one to the monitoring agent of
    a full run over a relational source, returns a result without the
    dashboard address. *)
Definition no_dashboard : list (option (result Mapping)) :=
  [None; None; None; None; None; Some (Ok {[ "alerts_created" := VNum 3 ]})].

Definition steady_start : World unit :=
  {| supervisor := tt; dispatched := []; log := [] |}.

End ScriptedSupervisor.

Import (hints) ScriptedSupervisor.

(** ** Readings of the cost review, continued *)

Module ReviewReading.

(** A computation leaves the world related by [kept] to the world it
    started from, whether it returns or raises. *)
Definition keeps {St A} (kept : World St → World St → Prop)
    (m : WeeklyCostReviewer.M St A) : Prop :=
  ∀ w, kept w (m w).2.

(** Since [w], only low-risk opportunities were handed to
    [apply_optimization]. *)
Definition only_low_risk_applied {St} (w w' : World St) : Prop :=
  ∃ calls, apply_calls w' = apply_calls w ++ calls ∧ Forall is_low calls.

(** Since [w], nothing was handed to [apply_optimization]. *)
Definition nothing_applied {St} (w w' : World St) : Prop :=
  apply_calls w' = apply_calls w.

(** Since [w], no notification was handed to a transport. *)
Definition nothing_sent {St} (w w' : World St) : Prop :=
  outbox w' = outbox w.

(** A computation that raises has sent nothing. *)
Definition silent_when_raising {St A} (m : WeeklyCostReviewer.M St A) : Prop :=
  ∀ w e, (m w).1 = Raised e → outbox (m w).2 = outbox w.

(** The three kinds of line that [_execute_optimizations] logs for an
    opportunity. *)
Definition is_applied_line (line : WeeklyCostReviewer.LogLine) : bool :=
  match line with
  | LogApplied _ => true
  | _ => false
  end.

Definition is_failed_line (line : WeeklyCostReviewer.LogLine) : bool :=
  match line with
  | LogFailed _ _ => true
  | _ => false
  end.

Definition is_pending_line (line : WeeklyCostReviewer.LogLine) : bool :=
  match line with
  | LogRequiresApproval _ | LogMediumRisk _ | LogHighRisk _ => true
  | _ => false
  end.

(** The number of lines of a log that satisfy [kind]. *)
Definition count_lines (kind : WeeklyCostReviewer.LogLine → bool)
    (lines : list WeeklyCostReviewer.LogLine) : nat :=
  length (List.filter kind lines).

(** The steps 1 to 5 of [run_weekly_review]: everything that it does
    before it calls [_send_notifications], up to the report. *)
Definition report_of_review {St} `{CostOptimizerAgent St} `{Rendering}
    (config : AgentConfig) (dry_run auto_approve_nonprod : bool)
  : WeeklyCostReviewer.M St Report :=
  spend_analysis <- _analyze_spend ;;
  log_top_cost_drivers spend_analysis ;;;
  opportunities <- call_agent find_opportunities ;;
  let categorized := _categorize_opportunities opportunities in
  results <- (if negb dry_run
              then _execute_optimizations config categorized
                     auto_approve_nonprod
              else ret no_results) ;;
  lift (_generate_report config spend_analysis opportunities
          categorized results dry_run).

End ReviewReading.

Import ReviewReading.

(** ** More scripts *)

Module ScriptedRuns.

Import Scripted.

(** The spend analysis fails. *)
Definition analysis_down : Script :=
  {| spend := Raised (AgentError "cost API down");
     found := Ok four_found;
     replies := [] |}.

(** The spend analysis reports a total cost of zero. *)
Definition nothing_spent : Script :=
  {| spend := Ok (analysis 0 six_drivers);
     found := Ok four_found;
     replies := [] |}.

(** The three buckets of the four opportunities. *)
Definition four_categorized : Categorized :=
  _categorize_opportunities four_found.

End ScriptedRuns.

(** ** Strings *)

Example detect_sales_source :
  source_type_of "sqlserver-prod.dbo.sales" = "sqlserver"
  ∧ load_mode_of (source_type_of "sqlserver-prod.dbo.sales") = "incremental".
Proof. split; vm_compute; reflexivity. Qed.

Example parse_daily : _parse_schedule "Daily-2AM" = "0 2 * * *".
Proof. vm_compute. reflexivity. Qed.

Lemma startswith_app (key s : string) :
  startswith key s = true ↔ ∃ rest, s = key +:+ rest.
Proof.
  revert s. induction key as [|a key IH]; intros s; simpl.
  - split; [intros _; by exists s | done].
  - destruct s as [|b s].
    + split; [done | intros [rest Hrest]; discriminate].
    + destruct (Ascii.eqb_spec a b) as [->|Hne].
      * rewrite IH. split; intros [rest Hrest]; exists rest.
        -- by rewrite Hrest.
        -- by injection Hrest.
      * split; [done | intros [rest Hrest]; injection Hrest; congruence].
Qed.

(** [contains] is Python's [in] on strings: the key occurs somewhere. *)
Lemma contains_occurrence (s key : string) :
  contains s key = true ↔ ∃ front rest, s = front +:+ key +:+ rest.
Proof.
  induction s as [|c s IH]; simpl.
  - rewrite orb_false_r, startswith_app. split.
    + intros [rest Hrest]. by exists EmptyString, rest.
    + intros [[|? ?] [rest Hrest]]; [by exists rest | discriminate].
  - rewrite orb_true_iff, startswith_app, IH. split.
    + intros [[rest Hrest] | (front & rest & Hrest)].
      * by exists EmptyString, rest.
      * exists (String c front), rest. simpl. by rewrite Hrest.
    + intros [[|c' front] [rest Hrest]]; simpl in Hrest.
      * left. by exists rest.
      * right. exists front, rest. by injection Hrest.
Qed.

Lemma first_match_first_in_table mapping s fallback :
  first_in_table mapping s fallback (first_match mapping s fallback).
Proof.
  induction mapping as [|[key value] mapping IH]; simpl.
  - right. by split.
  - destruct (contains s key) eqn:Hkey.
    + left. exists [], key, value, mapping. by repeat split.
    + destruct IH as [(before & k & v & after & -> & Hk & Hbefore & Hv)
                     | [Hnone Hv]].
      * left. exists ((key, value) :: before), k, v, after.
        repeat split; [done | by constructor | done].
      * right. split; [by constructor | done].
Qed.

(** A kind determined by "first in table" is unique. *)
Lemma first_in_table_unique mapping s fallback kind kind' :
  first_in_table mapping s fallback kind →
  first_in_table mapping s fallback kind' →
  kind = kind'.
Proof.
  revert kind kind'.
  assert (Hdet : ∀ kind, first_in_table mapping s fallback kind →
                         kind = first_match mapping s fallback).
  { induction mapping as [|[key value] mapping IH]; intros kind; simpl.
    - intros [(before & k & v & after & Heq & _) | [_ ->]]; [|done].
      by destruct before.
    - intros [(before & k & v & after & Heq & Hk & Hbefore & ->) | [Hnone ->]].
      + destruct before as [|[k0 v0] before]; simpl in Heq.
        * injection Heq as -> -> ->. by rewrite Hk.
        * injection Heq as -> -> ->.
          apply Forall_cons in Hbefore as [Hk0 Hbefore]. simpl in Hk0.
          rewrite Hk0. apply IH. left. by exists before, k, v, after.
      + apply Forall_cons in Hnone as [Hkey Hnone]. simpl in Hkey.
        rewrite Hkey. apply IH. right. by split. }
  intros kind kind' H1 H2. by rewrite (Hdet _ H1), (Hdet _ H2).
Qed.

(** ** Kind detection *)

(** C2, as stated, fails: with the tokens [mysql] and [oracle] both in
    the prefix the source detector answers [mysql], the shorter one; with
    [synapse] and [databricks] the destination detector answers
    [synapse]. *)
Lemma C2_longest_match_counterexample :
  (source_type_of "mysql-oracle.dbo.orders" = "mysql"
   ∧ contains (lower (before_first_dot "mysql-oracle.dbo.orders")) "oracle" = true
   ∧ ¬ longest_match source_mapping
         (lower (before_first_dot "mysql-oracle.dbo.orders")) "unknown"
         (source_type_of "mysql-oracle.dbo.orders"))
  ∧ (destination_type_of "synapse-databricks.sales" = "synapse"
     ∧ contains (lower (before_first_dot "synapse-databricks.sales")) "databricks" = true
     ∧ ¬ longest_match dest_mapping
           (lower (before_first_dot "synapse-databricks.sales")) "data_lake"
           (destination_type_of "synapse-databricks.sales")).
Proof.
  split; (split; [by vm_compute | split; [by vm_compute |]]).
  - intros [(key & value & Hin & Hkey & Hlongest & Hkind) | [Hnone _]].
    + assert (Hlen : String.length "oracle" ≤ String.length key).
      { apply (Hlongest "oracle" "oracle"); [|by vm_compute].
        unfold source_mapping. do 3 apply list_elem_of_further.
        apply list_elem_of_here. }
      vm_compute in Hkind. subst value.
      unfold source_mapping in Hin.
      repeat (apply elem_of_cons in Hin as [Hin | Hin];
              [simplify_eq; simpl in Hlen; lia |]).
      by apply elem_of_nil in Hin.
    + specialize (Hnone "mysql" "mysql").
      assert (Hin : ("mysql", "mysql") ∈ source_mapping).
      { unfold source_mapping. do 2 apply list_elem_of_further.
        apply list_elem_of_here. }
      apply Hnone in Hin. by vm_compute in Hin.
  - intros [(key & value & Hin & Hkey & Hlongest & Hkind) | [Hnone _]].
    + assert (Hlen : String.length "databricks" ≤ String.length key).
      { apply (Hlongest "databricks" "databricks"); [|by vm_compute].
        unfold dest_mapping. do 2 apply list_elem_of_further.
        apply list_elem_of_here. }
      vm_compute in Hkind. subst value.
      unfold dest_mapping in Hin.
      repeat (apply elem_of_cons in Hin as [Hin | Hin];
              [simplify_eq; simpl in Hlen; lia |]).
      by apply elem_of_nil in Hin.
    + specialize (Hnone "synapse" "synapse").
      assert (Hin : ("synapse", "synapse") ∈ dest_mapping).
      { unfold dest_mapping. apply list_elem_of_further.
        apply list_elem_of_here. }
      apply Hnone in Hin. by vm_compute in Hin.
Qed.

(** C2, amended: for every source and destination identifier, kind
    detection lower-cases the prefix (the segment before the first dot)
    and returns the kind of the first token, in the order of the table,
    that occurs in it; when no token occurs, the source kind is
    [unknown] and the destination kind is [data_lake]. *)
Theorem C2_detection_first_in_table (source destination : string) :
  first_in_table source_mapping (lower (before_first_dot source)) "unknown"
    (source_type_of source)
  ∧ first_in_table dest_mapping (lower (before_first_dot destination)) "data_lake"
      (destination_type_of destination).
Proof.
  split; apply first_match_first_in_table.
Qed.

(** ** Schedule normalization *)

Lemma schedule_mapping_values key expression :
  schedule_mapping !! key = Some expression →
  expression ∈ ["0 * * * *"; "0 2 * * *"; "0 2 * * 0"; "0 2 1 * *"].
Proof.
  unfold schedule_mapping.
  repeat (rewrite lookup_insert; case_decide;
          [intros [= <-]; set_solver |]).
  by rewrite lookup_empty.
Qed.

Lemma schedule_mapping_tokens key :
  key ∉ ["hourly"; "daily"; "daily-2am"; "weekly"; "monthly"] →
  schedule_mapping !! key = None.
Proof.
  intros Hkey. unfold schedule_mapping.
  repeat (rewrite lookup_insert; case_decide; [subst key; set_solver |]).
  by rewrite lookup_empty.
Qed.

(** C9: [_parse_schedule] is idempotent; the five known tokens, in any
    letter case, map to fixed expressions of five fields; every other
    token is passed through unchanged. *)
Theorem C9_parse_schedule_idempotent :
  (∀ s, _parse_schedule (_parse_schedule s) = _parse_schedule s)
  ∧ (∀ s, lower s = "hourly" → _parse_schedule s = "0 * * * *")
  ∧ (∀ s, lower s = "daily" → _parse_schedule s = "0 2 * * *")
  ∧ (∀ s, lower s = "daily-2am" → _parse_schedule s = "0 2 * * *")
  ∧ (∀ s, lower s = "weekly" → _parse_schedule s = "0 2 * * 0")
  ∧ (∀ s, lower s = "monthly" → _parse_schedule s = "0 2 1 * *")
  ∧ Forall (λ expression, fields expression = 5)
      ["0 * * * *"; "0 2 * * *"; "0 2 * * 0"; "0 2 1 * *"]
  ∧ (∀ s, lower s ∉ ["hourly"; "daily"; "daily-2am"; "weekly"; "monthly"] →
          _parse_schedule s = s).
Proof.
  split; [|split; [|split; [|split; [|split; [|split; [|split]]]]]].
  - intros s.
    destruct (schedule_mapping !! lower s) as [expression|] eqn:Hlookup.
    + assert (Hs : _parse_schedule s = expression)
        by (unfold _parse_schedule; by rewrite Hlookup).
      rewrite Hs. apply schedule_mapping_values in Hlookup.
      repeat (apply elem_of_cons in Hlookup as [-> | Hlookup];
              [by vm_compute |]).
      by apply elem_of_nil in Hlookup.
    + assert (Hs : _parse_schedule s = s)
        by (unfold _parse_schedule; by rewrite Hlookup).
      by rewrite Hs.
  - intros s Hs. unfold _parse_schedule. by rewrite Hs.
  - intros s Hs. unfold _parse_schedule. by rewrite Hs.
  - intros s Hs. unfold _parse_schedule. by rewrite Hs.
  - intros s Hs. unfold _parse_schedule. by rewrite Hs.
  - intros s Hs. unfold _parse_schedule. by rewrite Hs.
  - repeat constructor.
  - intros s Hs. unfold _parse_schedule.
    by rewrite (schedule_mapping_tokens _ Hs).
Qed.

(** C9 at [*/15 * * * *], which is no known token, and at [Weekly]. *)
Lemma C9_parse_schedule_witness :
  _parse_schedule "*/15 * * * *" = "*/15 * * * *"
  ∧ _parse_schedule "Weekly" = "0 2 * * 0"
  ∧ _parse_schedule (_parse_schedule "Weekly") = _parse_schedule "Weekly".
Proof.
  destruct C9_parse_schedule_idempotent
    as (Hidem & _ & _ & _ & Hweekly & _ & _ & Hother).
  split; [|split].
  - apply Hother. apply (bool_decide_unpack _). by vm_compute.
  - apply Hweekly. reflexivity.
  - apply Hidem.
Defined.

(** ** Risk categorization *)

Section Categorization.

(** The loop started from any three lists appends to each the matching
    opportunities, in their order. *)
Lemma categorize_from opportunities categorized :
  fold_left categorize_one opportunities categorized =
  {| low_risk := low_risk categorized ++ filter is_low opportunities;
     medium_risk := medium_risk categorized ++ filter is_medium opportunities;
     high_risk := high_risk categorized ++ filter is_other opportunities |}.
Proof.
  revert categorized.
  induction opportunities as [|opp opportunities IH]; intros categorized; simpl.
  - rewrite !app_nil_r. by destruct categorized.
  - rewrite IH. unfold categorize_one.
    destruct (decide (risk_level opp = "low")) as [Hlow | Hlow]; simpl.
    + rewrite (filter_cons_True is_low) by done.
      rewrite (filter_cons_False is_medium) by (unfold is_medium; congruence).
      rewrite (filter_cons_False is_other) by (unfold is_other; tauto).
      by rewrite <- app_assoc.
    + destruct (decide (risk_level opp = "medium")) as [Hmedium | Hmedium]; simpl.
      * rewrite (filter_cons_False is_low) by done.
        rewrite (filter_cons_True is_medium) by done.
        rewrite (filter_cons_False is_other) by (unfold is_other; tauto).
        by rewrite <- app_assoc.
      * rewrite (filter_cons_False is_low) by done.
        rewrite (filter_cons_False is_medium) by done.
        rewrite (filter_cons_True is_other) by done.
        by rewrite <- app_assoc.
Qed.

Lemma three_way_split opportunities :
  filter is_low opportunities ++ filter is_medium opportunities
    ++ filter is_other opportunities ≡ₚ opportunities.
Proof.
  induction opportunities as [|opp opportunities IH]; [done|].
  destruct (decide (risk_level opp = "low")) as [Hlow | Hlow].
  - rewrite (filter_cons_True is_low) by done.
    rewrite (filter_cons_False is_medium) by (unfold is_medium; congruence).
    rewrite (filter_cons_False is_other) by (unfold is_other; tauto).
    simpl. by rewrite IH.
  - destruct (decide (risk_level opp = "medium")) as [Hmedium | Hmedium].
    + rewrite (filter_cons_False is_low) by done.
      rewrite (filter_cons_True is_medium) by done.
      rewrite (filter_cons_False is_other) by (unfold is_other; tauto).
      simpl. rewrite <- Permutation_middle. by rewrite IH.
    + rewrite (filter_cons_False is_low) by done.
      rewrite (filter_cons_False is_medium) by done.
      rewrite (filter_cons_True is_other) by done.
      rewrite app_assoc, <- Permutation_middle, <- app_assoc. by rewrite IH.
Qed.

(** C5: [_categorize_opportunities] is a stable three-way partition.
    Each bucket is the input filtered by its condition on the risk
    level ([low], [medium], anything else), so the order of the input is
    kept within a bucket and the three conditions exclude one another;
    the buckets together are a rearrangement of the input, so every
    occurrence of an opportunity lands in one bucket once, and the
    three lengths add up to the length of the input. *)
Theorem C5_categorize_partition (opportunities : list Opportunity) :
  let categorized := _categorize_opportunities opportunities in
  low_risk categorized = filter is_low opportunities
  ∧ medium_risk categorized = filter is_medium opportunities
  ∧ high_risk categorized = filter is_other opportunities
  ∧ low_risk categorized ++ medium_risk categorized ++ high_risk categorized
      ≡ₚ opportunities
  ∧ length (low_risk categorized) + length (medium_risk categorized)
      + length (high_risk categorized) = length opportunities
  ∧ (∀ opp, (is_low opp ∧ ¬ is_medium opp ∧ ¬ is_other opp)
            ∨ (¬ is_low opp ∧ is_medium opp ∧ ¬ is_other opp)
            ∨ (¬ is_low opp ∧ ¬ is_medium opp ∧ is_other opp)).
Proof.
  unfold _categorize_opportunities. rewrite categorize_from. simpl.
  repeat split; try done.
  - apply three_way_split.
  - rewrite <- (Permutation_length (three_way_split opportunities)).
    rewrite !length_app. lia.
  - intros opp. unfold is_low, is_medium, is_other.
    destruct (decide (risk_level opp = "low")) as [Hlow | Hlow];
      [left; repeat split; [done | congruence | tauto] |].
    destruct (decide (risk_level opp = "medium")) as [Hmedium | Hmedium];
      [right; left; repeat split; [done | done | tauto] |].
    right; right. repeat split; [done | done | done | done].
Qed.

End Categorization.

Example categorize_three :
  _categorize_opportunities
    [Scripted.opp "a" 100 "low"; Scripted.opp "b" 50 "medium";
     Scripted.opp "c" 10 "unknown"]
  = {| low_risk := [Scripted.opp "a" 100 "low"];
       medium_risk := [Scripted.opp "b" 50 "medium"];
       high_risk := [Scripted.opp "c" 10 "unknown"] |}.
Proof. reflexivity. Qed.

(** ** The report *)

Lemma truediv_zero (a b : Q) :
  (b == 0)%Q → truediv a b = Raised ZeroDivisionError.
Proof.
  intros Hb. unfold truediv. apply Qeq_bool_iff in Hb. by rewrite Hb.
Qed.

Lemma truediv_nonzero (a b : Q) :
  ¬ (b == 0)%Q → truediv a b = Ok (a / b)%Q.
Proof.
  intros Hb. unfold truediv.
  destruct (Qeq_bool b 0) eqn:Hzero; [|done].
  by apply Qeq_bool_iff in Hzero.
Qed.

(** C1, as stated, fails: with a total monthly cost of zero the division
    raises, [_generate_report] produces no report, and the run ends with
    the exception after the optimizations were executed. *)
Lemma C1_zero_baseline_counterexample :
  _generate_report Scripted.dev (Scripted.spend_of 0 [])
    [Scripted.opp "a" 100 "low"]
    (_categorize_opportunities [Scripted.opp "a" 100 "low"])
    no_results true
  = Raised ZeroDivisionError
  ∧ (run_weekly_review Scripted.dev false true
       (Scripted.start
          {| Scripted.spend := Ok (Scripted.analysis 0 []);
             Scripted.found := Ok [Scripted.opp "a" 100 "low"];
             Scripted.replies := [] |})).1
    = Raised ZeroDivisionError.
Proof. split; reflexivity. Qed.

(** C1, amended: for every spend analysis with total monthly cost equal
    to zero, computing the savings percentage in [_generate_report]
    divides by zero and raises [ZeroDivisionError], so that no report is
    returned; for every non-zero baseline a report is returned and its
    savings percentage is (total potential savings / total monthly cost)
    * 100. *)
Theorem C1_savings_percentage `{Rendering} (config : AgentConfig)
    (spend_analysis : SpendAnalysis) (opportunities : list Opportunity)
    (categorized : Categorized) (results : Results) (dry_run : bool) :
  ((total_monthly_cost spend_analysis == 0)%Q →
     _generate_report config spend_analysis opportunities categorized
       results dry_run = Raised ZeroDivisionError)
  ∧ (¬ (total_monthly_cost spend_analysis == 0)%Q →
     ∃ report,
       _generate_report config spend_analysis opportunities categorized
         results dry_run = Ok report
       ∧ total_potential_savings (optimization_summary report)
         = sum (monthly_savings <$> opportunities)
       ∧ savings_percentage (optimization_summary report)
         = (sum (monthly_savings <$> opportunities)
            / total_monthly_cost spend_analysis * 100)%Q).
Proof.
  split; intros Hcost; unfold _generate_report.
  - by rewrite truediv_zero.
  - rewrite truediv_nonzero by done. eexists. by repeat split.
Qed.

(** C1 at a baseline of 1000 with savings of 100 + 50, and at a baseline
    of zero. *)
Lemma C1_savings_percentage_witness :
  (∃ report,
      _generate_report Scripted.dev (Scripted.spend_of 1000 [])
        [Scripted.opp "a" 100 "low"; Scripted.opp "b" 50 "medium"]
        (_categorize_opportunities
           [Scripted.opp "a" 100 "low"; Scripted.opp "b" 50 "medium"])
        no_results false = Ok report
      ∧ (savings_percentage (optimization_summary report) == 15)%Q)
  ∧ _generate_report Scripted.dev (Scripted.spend_of 0 []) [] 
      (_categorize_opportunities []) no_results false
    = Raised ZeroDivisionError.
Proof.
  split.
  - destruct (C1_savings_percentage Scripted.dev (Scripted.spend_of 1000 [])
                [Scripted.opp "a" 100 "low"; Scripted.opp "b" 50 "medium"]
                (_categorize_opportunities
                   [Scripted.opp "a" 100 "low"; Scripted.opp "b" 50 "medium"])
                no_results false) as [_ Hnonzero].
    destruct Hnonzero as (report & Hreport & _ & Hpercentage);
      [by vm_compute |].
    exists report. split; [exact Hreport |].
    rewrite Hpercentage. by vm_compute.
  - apply (C1_savings_percentage Scripted.dev (Scripted.spend_of 0 []) []
             (_categorize_opportunities []) no_results false).
    by vm_compute.
Defined.

(** A report shows the cost drivers through their first five only. *)
Lemma report_top_cost_drivers `{Rendering} config spend_analysis opportunities
    categorized results dry_run report :
  _generate_report config spend_analysis opportunities categorized results
    dry_run = Ok report →
  summary_top_cost_drivers (spend_summary report)
  = take 5 (top_cost_drivers spend_analysis).
Proof.
  unfold _generate_report.
  destruct (truediv _ _); [|done]. by intros [= <-].
Qed.

(** The display of step 1 logs one line for each of the first five
    cost drivers and changes nothing else. *)
Lemma log_top_cost_drivers_run {St} spend_analysis (w : World St) :
  log_top_cost_drivers spend_analysis w
  = (Ok tt,
     logged ((λ '(i, driver), LogCostDriver i (service driver) (cost driver))
               <$> enumerate_from 1 (take 5 (top_cost_drivers spend_analysis)))
       w).
Proof.
  unfold log_top_cost_drivers.
  generalize (enumerate_from 1 (take 5 (top_cost_drivers spend_analysis))).
  intros lines. revert w.
  induction lines as [|[i driver] lines IH]; intros w; simpl.
  - unfold ret, logged. simpl. rewrite app_nil_r. by destruct w.
  - unfold bind at 1. simpl. rewrite IH. unfold logged. simpl.
    by rewrite <- app_assoc.
Qed.

(** C3, as stated, fails: from a breakdown of six entries the report
    keeps five, and a breakdown with another sixth entry gives the very
    same report, so the sixth entry is nowhere in it. *)
Lemma C3_full_list_counterexample :
  ∃ report,
    _generate_report Scripted.dev
      (Scripted.spend_of 1000 Scripted.six_drivers) [] 
      (_categorize_opportunities []) no_results false = Ok report
    ∧ length Scripted.six_drivers = 6
    ∧ length (summary_top_cost_drivers (spend_summary report)) = 5
    ∧ summary_top_cost_drivers (spend_summary report) ≠ Scripted.six_drivers
    ∧ take 5 Scripted.six_drivers ++ [Scripted.driver 99] ≠ Scripted.six_drivers
    ∧ _generate_report Scripted.dev
        (Scripted.spend_of 1000
           (take 5 Scripted.six_drivers ++ [Scripted.driver 99])) [] 
        (_categorize_opportunities []) no_results false = Ok report.
Proof.
  eexists. split; [reflexivity |].
  repeat split; try reflexivity; by vm_compute.
Qed.

(** C3, amended: for every spend analysis whose cost-breakdown list has
    more than 5 entries, the report built by [_generate_report] holds the
    first 5 cost drivers, in their order, and nothing of the rest: two
    analyses that agree on the total, the trend and the first 5 drivers
    give the same report.  The display of step 1 shows the same 5. *)
Theorem C3_report_keeps_top_five `{Rendering} (config : AgentConfig)
    (spend_analysis : SpendAnalysis) (opportunities : list Opportunity)
    (categorized : Categorized) (results : Results) (dry_run : bool)
    (report : Report) :
  5 < length (top_cost_drivers spend_analysis) →
  _generate_report config spend_analysis opportunities categorized results
    dry_run = Ok report →
  summary_top_cost_drivers (spend_summary report)
  = take 5 (top_cost_drivers spend_analysis)
  ∧ length (summary_top_cost_drivers (spend_summary report)) = 5
  ∧ summary_top_cost_drivers (spend_summary report)
    ≠ top_cost_drivers spend_analysis
  ∧ (∀ other : SpendAnalysis,
       total_monthly_cost other = total_monthly_cost spend_analysis →
       trend other = trend spend_analysis →
       take 5 (top_cost_drivers other) = take 5 (top_cost_drivers spend_analysis) →
       _generate_report config other opportunities categorized results
         dry_run = Ok report)
  ∧ (∀ St (w : World St),
       log_top_cost_drivers spend_analysis w
       = (Ok tt,
          logged ((λ '(i, driver), LogCostDriver i (service driver) (cost driver))
                    <$> enumerate_from 1 (take 5 (top_cost_drivers spend_analysis)))
            w)).
Proof.
  intros Hlong Hreport.
  pose proof (report_top_cost_drivers _ _ _ _ _ _ _ Hreport) as Htop.
  split; [done |]. split; [rewrite Htop, length_take; lia |].
  split; [intros Heq; rewrite Htop in Heq;
          apply (f_equal length) in Heq; rewrite length_take in Heq; lia |].
  split.
  - intros other Hcost Htrend Hfive. revert Hreport.
    unfold _generate_report. rewrite Hcost, Htrend, Hfive. done.
  - intros St w. apply log_top_cost_drivers_run.
Qed.

(** C3 at a breakdown of six entries. *)
Lemma C3_report_keeps_top_five_witness :
  ∃ report,
    _generate_report Scripted.dev
      (Scripted.spend_of 1000 Scripted.six_drivers) [] 
      (_categorize_opportunities []) no_results false = Ok report
    ∧ summary_top_cost_drivers (spend_summary report)
      = take 5 Scripted.six_drivers.
Proof.
  eexists. split; [reflexivity |].
  apply (C3_report_keeps_top_five Scripted.dev
           (Scripted.spend_of 1000 Scripted.six_drivers) [] 
           (_categorize_opportunities []) no_results false).
  - vm_compute. lia.
  - reflexivity.
Defined.

(** ** Running the loops *)

Lemma bind_ok {St A B} (m : M St A) (f : A → M St B) w b w' :
  bind m f w = (Ok b, w') ↔ ∃ a w1, m w = (Ok a, w1) ∧ f a w1 = (Ok b, w').
Proof.
  unfold bind. split.
  - destruct (m w) as [[a|e] w1]; [|done]. intros Hf. by exists a, w1.
  - intros (a & w1 & -> & Hf). done.
Qed.

Lemma for_each_app {St A B} (body : A → B → M St B) xs ys acc w :
  for_each body (xs ++ ys) acc w
  = bind (for_each body xs acc) (for_each body ys) w.
Proof.
  revert acc w. induction xs as [|x xs IH]; intros acc w; simpl.
  - done.
  - unfold bind. destruct (body x acc w) as [[acc'|e] w1]; [|done].
    by rewrite IH.
Qed.

Lemma logged_logged {St} lines lines' (w : World St) :
  logged lines' (logged lines w) = logged (lines ++ lines') w.
Proof. unfold logged. simpl. by rewrite <- app_assoc. Qed.

Lemma logged_nil {St} (w : World St) : logged [] w = w.
Proof. unfold logged. rewrite app_nil_r. by destruct w. Qed.

Lemma more_pending_more_pending n m acc :
  more_pending m (more_pending n acc) = more_pending (n + m) acc.
Proof. unfold more_pending. simpl. f_equal. lia. Qed.

Lemma more_pending_0 acc : more_pending 0 acc = acc.
Proof. unfold more_pending. destruct acc. simpl. f_equal. lia. Qed.

Lemma pending_body_run {St} line opp acc (w : World St) :
  pending_body line opp acc w
  = (Ok (more_pending 1 acc), logged [line (title opp)] w).
Proof. reflexivity. Qed.

(** The loops over the medium-risk and the high-risk bucket. *)
Lemma pending_loop {St} line opps acc (w : World St) :
  for_each (pending_body line) opps acc w
  = (Ok (more_pending (length opps) acc),
     logged ((λ opp, line (title opp)) <$> opps) w).
Proof.
  revert acc w. induction opps as [|opp opps IH]; intros acc w; simpl.
  - by rewrite more_pending_0, logged_nil.
  - unfold bind. rewrite pending_body_run, IH.
    by rewrite more_pending_more_pending, logged_logged.
Qed.

Section Execution.

Context {St : Type} `{!CostOptimizerAgent St}.
Implicit Types (config : AgentConfig) (w : World St) (acc : Results).

(** What the body of the low-risk loop does when the gate is shut. *)
Lemma low_risk_body_shut config flag opp acc w :
  auto_apply config flag = false →
  low_risk_body config flag opp acc w
  = (Ok (more_pending 1 acc), logged [LogRequiresApproval (title opp)] w).
Proof. intros Hgate. unfold low_risk_body. by rewrite Hgate. Qed.

(** What it does when the gate is open, by the answer of the agent. *)
Lemma low_risk_body_open config flag opp acc w :
  auto_apply config flag = true →
  low_risk_body config flag opp acc w
  = match apply_optimization opp (agent w) with
    | (Ok result, st') =>
        if success result then
          (Ok (more_applied (monthly_savings opp) acc),
           logged [LogApplied (title opp)] (called opp st' w))
        else
          match error result with
          | Some reason =>
              (Ok (more_skipped 1 acc),
               logged [LogFailed (title opp) reason] (called opp st' w))
          | None => (Raised (KeyError "error"), called opp st' w)
          end
    | (Raised e, st') => (Raised e, called opp st' w)
    end.
Proof.
  intros Hgate. unfold low_risk_body. rewrite Hgate.
  unfold bind, call_apply_optimization, bind, record_apply_call, call_agent.
  simpl. destruct (apply_optimization opp (agent w)) as [[result|e] st'];
    [|done].
  destruct (success result); [done |].
  unfold getitem_error. by destruct (error result).
Qed.

Lemma low_risk_loop_shut config flag opps acc w :
  auto_apply config flag = false →
  for_each (low_risk_body config flag) opps acc w
  = (Ok (more_pending (length opps) acc),
     logged ((λ opp, LogRequiresApproval (title opp)) <$> opps) w).
Proof.
  intros Hgate. revert acc w.
  induction opps as [|opp opps IH]; intros acc w; simpl.
  - by rewrite more_pending_0, logged_nil.
  - unfold bind. rewrite low_risk_body_shut, IH by done.
    by rewrite more_pending_more_pending, logged_logged.
Qed.

(** The low-risk loop with the gate open: what a run that returns has
    counted. *)
Lemma low_risk_loop_open config flag opps acc w acc' w' :
  auto_apply config flag = true →
  for_each (low_risk_body config flag) opps acc w = (Ok acc', w') →
  all_answered opps (agent w) = true
  ∧ applied_count acc'
    = applied_count acc + length (reported_success opps (agent w))
  ∧ actual_savings acc'
    = fold_left Qplus (monthly_savings <$> reported_success opps (agent w))
        (actual_savings acc)
  ∧ pending_count acc' = pending_count acc
  ∧ applied_count acc' + skipped_count acc'
    = applied_count acc + skipped_count acc + length opps
  ∧ apply_calls w' = apply_calls w ++ opps
  ∧ outbox w' = outbox w.
Proof.
  intros Hgate. revert acc w.
  induction opps as [|opp opps IH]; intros acc w Hrun; simpl in *.
  - injection Hrun as <- <-. rewrite app_nil_r. repeat split; lia.
  - apply bind_ok in Hrun as (acc1 & w1 & Hbody & Hrest).
    rewrite low_risk_body_open in Hbody by done.
    destruct (apply_optimization opp (agent w)) as [[result|e] st'];
      [|done].
    destruct (success result); simpl.
    + injection Hbody as <- <-.
      apply IH in Hrest as (Hanswered & Happlied & Hsavings & Hpending
                            & Hsum & Hcalls & Houtbox).
      simpl in *. rewrite Hcalls, <- app_assoc. repeat split; try done; lia.
    + destruct (error result) as [reason|]; [|done].
      injection Hbody as <- <-.
      apply IH in Hrest as (Hanswered & Happlied & Hsavings & Hpending
                            & Hsum & Hcalls & Houtbox).
      simpl in *. rewrite Hcalls, <- app_assoc. repeat split; try done; lia.
Qed.

(** The low-risk loop returns when the agent answers every call. *)
Lemma low_risk_loop_returns config flag opps acc w :
  auto_apply config flag = true →
  all_answered opps (agent w) = true →
  ∃ acc' w', for_each (low_risk_body config flag) opps acc w = (Ok acc', w').
Proof.
  intros Hgate. revert acc w.
  induction opps as [|opp opps IH]; intros acc w Hanswered; simpl in *.
  - by eexists _, _.
  - unfold bind. rewrite low_risk_body_open by done.
    destruct (apply_optimization opp (agent w)) as [[result|e] st'];
      [|done].
    apply andb_true_iff in Hanswered as [Hresult Hrest].
    destruct (success result); simpl in *.
    + by apply IH.
    + apply bool_decide_eq_true in Hresult as [reason Hreason].
      rewrite Hreason. by apply IH.
Qed.

(** What [_execute_optimizations] returns, when it returns. *)
Lemma execute_returned config categorized flag w results w' :
  _execute_optimizations config categorized flag w = (Ok results, w') →
  applied_count results
  = length (counted_as_applied config flag categorized (agent w))
  ∧ actual_savings results
    = sum (monthly_savings
             <$> counted_as_applied config flag categorized (agent w))
  ∧ applied_count results + pending_count results + skipped_count results
    = length (low_risk categorized) + length (medium_risk categorized)
      + length (high_risk categorized)
  ∧ outbox w' = outbox w.
Proof.
  unfold _execute_optimizations, counted_as_applied, sum. intros Hrun.
  apply bind_ok in Hrun as (acc1 & w1 & Hlow & Hrun).
  apply bind_ok in Hrun as (acc2 & w2 & Hmedium & Hrun).
  apply bind_ok in Hrun as (acc3 & w3 & Hhigh & Hrun).
  injection Hrun as <- <-.
  rewrite pending_loop in Hmedium. injection Hmedium as <- <-.
  rewrite pending_loop in Hhigh. injection Hhigh as <- <-.
  destruct (auto_apply config flag) eqn:Hgate.
  - apply low_risk_loop_open in Hlow as (_ & Happlied & Hsavings & Hpending
                                         & Hsum & _ & Houtbox); [|done].
    simpl in *. repeat split; try done; lia.
  - rewrite low_risk_loop_shut in Hlow by done. injection Hlow as <- <-.
    simpl. repeat split; lia.
Qed.

(** [_execute_optimizations] returns exactly when the gate is shut or the
    agent answers every call of the low-risk loop. *)
Lemma execute_returns config categorized flag w :
  auto_apply config flag = false
  ∨ all_answered (low_risk categorized) (agent w) = true →
  ∃ results w',
    _execute_optimizations config categorized flag w = (Ok results, w').
Proof.
  intros Hreturns. unfold _execute_optimizations.
  assert (∃ acc1 w1,
             for_each (low_risk_body config flag) (low_risk categorized)
               no_results w = (Ok acc1, w1)) as (acc1 & w1 & Hlow).
  { destruct (auto_apply config flag) eqn:Hgate.
    - destruct Hreturns as [? | Hanswered]; [done |].
      by apply low_risk_loop_returns.
    - rewrite low_risk_loop_shut by done. by eexists _, _. }
  unfold bind. rewrite Hlow, !pending_loop. by eexists _, _.
Qed.


(** ** The approval policy *)

Lemma auto_apply_spec config flag :
  auto_apply config flag = true
  ↔ config_environment config ≠ "prod" ∧ flag = true.
Proof.
  unfold auto_apply. by rewrite andb_true_iff, bool_decide_eq_true.
Qed.


Lemma low_risk_body_calls config flag opp acc w :
  auto_apply config flag = true →
  apply_calls (low_risk_body config flag opp acc w).2 = apply_calls w ++ [opp].
Proof.
  intros Hgate. rewrite low_risk_body_open by done.
  destruct (apply_optimization opp (agent w)) as [[result|e] st']; [|done].
  destruct (success result); [done |]. by destruct (error result).
Qed.





(** ** Failures of [apply_optimization] *)




(** ** Realized savings *)

Lemma reported_success_sublist (opps : list Opportunity) (st : St) :
  sublist (reported_success opps st) opps.
Proof.
  revert st. induction opps as [|opp opps IH]; intros st; simpl; [done |].
  destruct (apply_optimization opp st) as [[result|e] st'];
    [|apply sublist_nil_l].
  destruct (success result); [by apply sublist_skip |].
  case_bool_decide; [by apply sublist_cons | apply sublist_nil_l].
Qed.

(** C8: the [actual_savings] that [_execute_optimizations] returns is the
    sum of [monthly_savings] over the opportunities counted as applied:
    low-risk items whose call reported success, as many as
    [applied_count] says, in the order of the bucket.  The run returns
    whenever the gate is shut or the agent answers every call. *)
Theorem C8_actual_savings config categorized flag w :
  (∀ results w',
      _execute_optimizations config categorized flag w = (Ok results, w') →
      actual_savings results
      = sum (monthly_savings
               <$> counted_as_applied config flag categorized (agent w))
      ∧ applied_count results
        = length (counted_as_applied config flag categorized (agent w)))
  ∧ sublist (counted_as_applied config flag categorized (agent w))
      (low_risk categorized)
  ∧ (auto_apply config flag = false
     ∨ all_answered (low_risk categorized) (agent w) = true →
     ∃ results w',
       _execute_optimizations config categorized flag w = (Ok results, w')).
Proof.
  split; [|split].
  - intros results w' Hrun.
    by apply execute_returned in Hrun as (Happlied & Hsavings & _).
  - unfold counted_as_applied. destruct (auto_apply config flag).
    + apply reported_success_sublist.
    + apply sublist_nil_l.
  - apply execute_returns.
Qed.

End Execution.

(** ** The whole review *)

Lemma gt_spec (a b : Q) : gt a b = true ↔ (b < a)%Q.
Proof.
  unfold gt. rewrite negb_true_iff. split.
  - intros Hle. apply Qnot_le_lt. intros Hab.
    apply Qle_bool_iff in Hab. congruence.
  - intros Hlt. destruct (Qle_bool a b) eqn:Hle; [|done].
    apply Qle_bool_iff in Hle. by apply Qlt_not_le in Hlt.
Qed.

Lemma lift_ok {St A} (r : result A) (w w' : World St) a :
  lift r w = (Ok a, w') → r = Ok a ∧ w' = w.
Proof. destruct r; simpl; unfold ret, raise; intros [= <- <-]; done. Qed.

Lemma call_agent_outbox {St A} (method : St → result A * St)
    (w w' : World St) r :
  call_agent method w = (r, w') → outbox w' = outbox w.
Proof.
  unfold call_agent. destruct (method (agent w)) as [r' st'].
  by intros [= <- <-].
Qed.



(** What [_send_notifications] hands to the transports. *)
Lemma send_notifications_run {St} `{Rendering} config report (w : World St) :
  _send_notifications config report w
  = (Ok tt,
     notified
       (Slack (_format_slack_message report)
        :: if gt (total_potential_savings (optimization_summary report)) 1000
           then [Email (cost_notification_emails config)
                   (email_subject report) (_format_email report)]
           else [])
       w).
Proof.
  unfold _send_notifications, bind, send, notified. simpl.
  destruct (gt _ 1000); simpl.
  - by rewrite <- app_assoc.
  - done.
Qed.

Section Review.

Context {St : Type} `{!CostOptimizerAgent St} `{!Rendering}.
Implicit Types (config : AgentConfig) (w : World St) (acc : Results).

(** The steps behind a report that [run_weekly_review] returned. *)
Lemma run_returned config dry_run flag w report w' :
  run_weekly_review config dry_run flag w = (Ok report, w') →
  ∃ spend_analysis opportunities results w3 w4,
    outbox w3 = outbox w
    ∧ (if dry_run then results = no_results ∧ w4 = w3
       else _execute_optimizations config
              (_categorize_opportunities opportunities) flag w3
            = (Ok results, w4))
    ∧ _generate_report config spend_analysis opportunities
        (_categorize_opportunities opportunities) results dry_run = Ok report
    ∧ _send_notifications config report w4 = (Ok tt, w').
Proof.
  unfold run_weekly_review. intros Hrun.
  apply bind_ok in Hrun as (spend_analysis & w1 & Hspend & Hrun).
  apply bind_ok in Hrun as ([] & w2 & Hshow & Hrun).
  apply bind_ok in Hrun as (opportunities & w3 & Hfind & Hrun).
  apply bind_ok in Hrun as (results & w4 & Hexecute & Hrun).
  apply bind_ok in Hrun as (report' & w5 & Hreport & Hrun).
  apply bind_ok in Hrun as ([] & w6 & Hsend & Hrun).
  injection Hrun as -> ->.
  apply lift_ok in Hreport as [Hreport ->].
  exists spend_analysis, opportunities, results, w3, w4.
  split; [|split; [|split]]; try done.
  - apply call_agent_outbox in Hfind. rewrite Hfind.
    rewrite log_top_cost_drivers_run in Hshow. injection Hshow as <-.
    unfold _analyze_spend in Hspend.
    apply bind_ok in Hspend as (analysis & w0 & Hcall & Hret).
    apply call_agent_outbox in Hcall. injection Hret as _ <-.
    by rewrite <- Hcall.
  - destruct dry_run; simpl in Hexecute; [|done].
    by injection Hexecute as <- <-.
Qed.



(** C10: [_send_notifications] hands the chat message to the transport
    for every report, and the email exactly when the total potential
    monthly savings of the report exceed 1000; so does every review that
    returns its report. *)
Theorem C10_notifications config :
  (∀ report w,
      ∃ emails,
        _send_notifications config report w
        = (Ok tt, notified (Slack (_format_slack_message report) :: emails) w)
        ∧ (emails = [Email (cost_notification_emails config)
                       (email_subject report) (_format_email report)]
           ∧ (1000 < total_potential_savings (optimization_summary report))%Q
           ∨ emails = []
             ∧ ¬ (1000 < total_potential_savings (optimization_summary report))%Q))
  ∧ (∀ dry_run flag w report w',
        run_weekly_review config dry_run flag w = (Ok report, w') →
        ((1000 < total_potential_savings (optimization_summary report))%Q
         ∧ outbox w'
           = outbox w ++ [Slack (_format_slack_message report);
                          Email (cost_notification_emails config)
                            (email_subject report) (_format_email report)])
        ∨ (¬ (1000 < total_potential_savings (optimization_summary report))%Q
           ∧ outbox w' = outbox w ++ [Slack (_format_slack_message report)])).
Proof.
  split.
  - intros report w. rewrite send_notifications_run.
    destruct (gt _ 1000) eqn:Hgt; eexists; (split; [reflexivity |]).
    + left. split; [done |]. by apply gt_spec.
    + right. split; [done |]. rewrite <- gt_spec. congruence.
  - intros dry_run flag w report w' Hrun.
    apply run_returned in Hrun
      as (spend_analysis & opportunities & results & w3 & w4
          & Hbefore & Hexecute & _ & Hsend).
    assert (Hkept : outbox w4 = outbox w).
    { destruct dry_run.
      - by destruct Hexecute as [_ ->].
      - apply execute_returned in Hexecute as (_ & _ & _ & Hkept).
        by rewrite Hkept. }
    rewrite send_notifications_run in Hsend. injection Hsend as <-.
    simpl. rewrite Hkept.
    destruct (gt _ 1000) eqn:Hgt.
    + left. split; [by apply gt_spec | done].
    + right. split; [rewrite <- gt_spec; congruence | done].
Qed.

End Review.

(** ** The properties at work on the scripted agent *)






(** C8 at the same run: the one applied opportunity saves 2000. *)
Lemma C8_actual_savings_witness :
  ∃ results w',
    _execute_optimizations Scripted.dev
      (_categorize_opportunities Scripted.four_found) true
      (Scripted.start (Scripted.script_with (Ok (Scripted.failed "quota"))))
    = (Ok results, w')
    ∧ actual_savings results
      = sum (monthly_savings <$> [Scripted.opp "d" 2000 "low"])
    ∧ applied_count results = 1.
Proof.
  eexists _, _. split; [by vm_compute |].
  refine (proj1 (C8_actual_savings Scripted.dev
                   (_categorize_opportunities Scripted.four_found) true
                   (Scripted.start
                      (Scripted.script_with (Ok (Scripted.failed "quota")))))
            _ _ _).
  by vm_compute.
Defined.

(** C10 at the same run, whose potential savings are 2160. *)
Lemma C10_notifications_witness :
  ∃ report w',
    run_weekly_review Scripted.dev false true
      (Scripted.start (Scripted.script_with (Ok (Scripted.failed "quota"))))
    = (Ok report, w')
    ∧ outbox w'
      = [Slack (_format_slack_message report);
         Email ["ops"] (email_subject report) (_format_email report)].
Proof.
  destruct (run_weekly_review Scripted.dev false true
              (Scripted.start
                 (Scripted.script_with (Ok (Scripted.failed "quota")))))
    as [[report|e] w'] eqn:Hrun; [|by vm_compute in Hrun].
  exists report, w'. split; [reflexivity |].
  destruct (proj2 (C10_notifications Scripted.dev) _ _ _ _ _ Hrun)
    as [[_ Hsent] | [Hsmall _]].
  - exact Hsent.
  - exfalso. apply Hsmall.
    vm_compute in Hrun. injection Hrun as <- _. reflexivity.
Defined.

(** * Further properties of the pipeline creator *)

(** ** Letter case and the tail of an identifier *)

Lemma lower_ascii_idempotent (c : ascii) :
  lower_ascii (lower_ascii c) = lower_ascii c.
Proof. by destruct c as [[] [] [] [] [] [] [] []]. Qed.

Lemma lower_ascii_dot (c : ascii) :
  Ascii.eqb (lower_ascii c) "."%char = Ascii.eqb c "."%char.
Proof. by destruct c as [[] [] [] [] [] [] [] []]. Qed.

Lemma lower_ascii_space (c : ascii) :
  Ascii.eqb " "%char (lower_ascii c) = Ascii.eqb " "%char c.
Proof. by destruct c as [[] [] [] [] [] [] [] []]. Qed.

Lemma lower_idempotent (s : string) : lower (lower s) = lower s.
Proof.
  induction s as [|c s IH]; simpl; [done |].
  by rewrite lower_ascii_idempotent, IH.
Qed.

Lemma before_first_dot_lower (s : string) :
  before_first_dot (lower s) = lower (before_first_dot s).
Proof.
  induction s as [|c s IH]; simpl; [done |].
  rewrite lower_ascii_dot. destruct (Ascii.eqb c "."); simpl; [done |].
  by rewrite IH.
Qed.

Lemma before_first_dot_app (s rest : string) :
  before_first_dot (s +:+ "." +:+ rest) = before_first_dot s.
Proof.
  induction s as [|c s IH]; simpl; [done |].
  destruct (Ascii.eqb c "."); [done |]. by rewrite IH.
Qed.

(** X1: kind detection reads an identifier only through the lower-cased
    segment before its first dot: two identifiers that differ in letter
    case only get the same source kind and the same destination kind, and
    so do an identifier and the identifier followed by a dot and anything
    else. *)
Theorem detection_ignores_case_and_tail :
  (∀ s t, lower s = lower t →
          source_type_of s = source_type_of t
          ∧ destination_type_of s = destination_type_of t)
  ∧ (∀ s rest,
        source_type_of (s +:+ "." +:+ rest) = source_type_of s
        ∧ destination_type_of (s +:+ "." +:+ rest) = destination_type_of s).
Proof.
  split.
  - intros s t Hcase.
    unfold source_type_of, destination_type_of,
      _detect_source_type, _detect_destination_type.
    by rewrite <- !before_first_dot_lower, Hcase.
  - intros s rest. unfold source_type_of, destination_type_of.
    by rewrite before_first_dot_app.
Qed.

(** X1 at an upper-case identifier with a longer tail. *)
Lemma detection_ignores_case_and_tail_witness :
  source_type_of "SQLServer-Prod.dbo.sales_orders"
  = source_type_of "sqlserver-prod.dbo.sales_orders".
Proof.
  apply (proj1 detection_ignores_case_and_tail). reflexivity.
Defined.

(** ** The kinds that detection can answer *)

Lemma first_match_range mapping s fallback :
  first_match mapping s fallback ∈ mapping.*2 ++ [fallback].
Proof.
  induction mapping as [|[key value] mapping IH]; simpl.
  - apply list_elem_of_here.
  - destruct (contains s key).
    + apply list_elem_of_here.
    + by apply list_elem_of_further.
Qed.

(** X2: whatever the identifier, the source kind is one of the eight
    kinds of the table or [unknown], and the destination kind is one of
    the five kinds of its table; the load mode is [incremental] or
    [full]. *)
Theorem detection_range (source destination : string) :
  source_type_of source
    ∈ ["sqlserver"; "postgresql"; "mysql"; "oracle"; "cosmosdb";
       "blob_storage"; "data_lake"; "rest_api"; "unknown"]
  ∧ destination_type_of destination
      ∈ ["data_lake"; "synapse"; "databricks"; "cosmosdb"; "sql_database"]
  ∧ load_mode_of (source_type_of source) ∈ ["incremental"; "full"].
Proof.
  split; [|split].
  - apply (first_match_range source_mapping).
  - pose proof (first_match_range dest_mapping
                  (lower (before_first_dot destination)) "data_lake") as Hin.
    unfold destination_type_of, _detect_destination_type.
    generalize dependent (first_match dest_mapping
                            (lower (before_first_dot destination)) "data_lake").
    intros kind Hin. unfold dest_mapping in Hin. simpl in Hin.
    repeat (apply elem_of_cons in Hin as [-> | Hin];
            [by apply (bool_decide_unpack _) |]).
    by apply elem_of_nil in Hin.
  - unfold load_mode_of. case_bool_decide.
    + apply list_elem_of_here.
    + apply list_elem_of_further, list_elem_of_here.
Qed.

(** ** Cron expressions *)

Lemma contains_space_lower (s : string) :
  contains (lower s) " " = contains s " ".
Proof.
  induction s as [|c s IH]; [done |].
  cbn [contains startswith lower]. by rewrite lower_ascii_space, IH.
Qed.

(** X3: a schedule with a space in it, as every cron expression of
    several fields has, is never rewritten by [_parse_schedule]. *)
Theorem parse_schedule_keeps_cron (schedule : string) :
  contains schedule " " = true → _parse_schedule schedule = schedule.
Proof.
  intros Hspace. rewrite <- contains_space_lower in Hspace.
  unfold _parse_schedule. rewrite schedule_mapping_tokens; [done |].
  intros Htoken.
  repeat (apply elem_of_cons in Htoken as [Htoken | Htoken];
          [rewrite Htoken in Hspace; by vm_compute in Hspace |]).
  by apply elem_of_nil in Htoken.
Qed.

(** X3 at the expression of the docstring of [create_pipeline]. *)
Lemma parse_schedule_keeps_cron_witness :
  _parse_schedule "*/15 * * * *" = "*/15 * * * *".
Proof. apply parse_schedule_keeps_cron. reflexivity. Defined.

(** ** Required resources *)

Section Resources.

Import PipelineCreation.

Lemma integration_runtime_listed (source_type destination_type : string) :
  "integration_runtime" ∈ _determine_resources source_type destination_type
  ↔ source_type ∈ ["sqlserver"; "postgresql"; "mysql"].
Proof.
  unfold _determine_resources.
  destruct (decide (destination_type = "synapse"));
    [|destruct (decide (destination_type = "databricks"))];
    case_bool_decide; simpl; (split; [|intros; by apply (bool_decide_unpack _)]);
    intros Hin; try done;
    repeat (apply elem_of_cons in Hin as [Hin | Hin]; [discriminate |]);
    by apply elem_of_nil in Hin.
Qed.

(** X4: the resource list starts with the data factory and the storage
    account, in this order; it holds the Synapse workspace exactly for the
    destination kind [synapse], the Databricks workspace exactly for
    [databricks], the integration runtime exactly for a relational source
    kind, and nothing else; no resource is listed twice. *)
Theorem determine_resources_contents (source_type destination_type : string) :
  take 2 (_determine_resources source_type destination_type)
  = ["data_factory"; "storage_account"]
  ∧ ("synapse_workspace" ∈ _determine_resources source_type destination_type
     ↔ destination_type = "synapse")
  ∧ ("databricks_workspace" ∈ _determine_resources source_type destination_type
     ↔ destination_type = "databricks")
  ∧ ("integration_runtime" ∈ _determine_resources source_type destination_type
     ↔ source_type ∈ ["sqlserver"; "postgresql"; "mysql"])
  ∧ (∀ resource,
        resource ∈ _determine_resources source_type destination_type →
        resource ∈ ["data_factory"; "storage_account"; "synapse_workspace";
                    "databricks_workspace"; "integration_runtime"])
  ∧ NoDup (_determine_resources source_type destination_type).
Proof.
  split; [|split; [|split; [|split; [apply integration_runtime_listed |]]]];
    unfold _determine_resources;
    (destruct (decide (destination_type = "synapse")) as [Hsynapse | Hsynapse];
     [|destruct (decide (destination_type = "databricks"))
         as [Hdatabricks | Hdatabricks]]);
    case_bool_decide; simpl;
    repeat match goal with
      | |- _ ∧ _ => split
      | |- _ ↔ _ => split
      | |- NoDup _ => by apply (bool_decide_unpack _)
      | |- ∀ _, _ => intros ?
      | |- _ → _ => intros ?
      end;
    try done; try congruence;
    try (by apply (bool_decide_unpack _));
    repeat match goal with
      | H : _ ∈ _ :: _ |- _ => apply elem_of_cons in H as [H | H]
      | H : _ ∈ [] |- _ => by apply elem_of_nil in H
      end;
    subst; try done; try congruence; try (by apply (bool_decide_unpack _)).
Qed.

(** X5: the load mode is [incremental] exactly when the resource list
    holds the integration runtime, whatever the destination kind. *)
Theorem incremental_needs_integration_runtime
    (source_type destination_type : string) :
  load_mode_of source_type = "incremental"
  ↔ "integration_runtime" ∈ _determine_resources source_type destination_type.
Proof.
  rewrite integration_runtime_listed.
  unfold load_mode_of. case_bool_decide; split; done.
Qed.

End Resources.

(** ** Running the pipeline creator *)

Section Orchestration.

Import PipelineCreation.

Context {St : Type} `{!SupervisorAgent St} `{!Tracking}.
Implicit Types (w : World St) (config : AgentConfig).

Lemma wp_bind {A B} (m : M St A) (f : A → M St B) w post :
  wp m w (λ r w1,
            match r with
            | Ok a => wp (f a) w1 post
            | Raised e => post (Raised e) w1
            end) →
  wp (bind m f) w post.
Proof.
  unfold wp, bind. by destruct (m w) as [[a|e] w1].
Qed.

Lemma wp_ret {A} (a : A) w post : post (Ok a) w → wp (ret a) w post.
Proof. done. Qed.

Lemma wp_logger_info text shown w (post : result unit → World St → Prop) :
  (∀ lines, post (Ok tt) {| supervisor := supervisor w;
                            dispatched := dispatched w; log := lines |}) →
  wp (logger_info text shown) w post.
Proof. intros Hpost. apply Hpost. Qed.

Lemma wp_getitem (d : Mapping) key w (post : result Value → World St → Prop) :
  (∀ v, d !! key = Some v → post (Ok v) w) →
  (d !! key = None → post (Raised (KeyError key)) w) →
  wp (lift (getitem d key)) w post.
Proof.
  intros Hsome Hnone. unfold wp, getitem.
  destruct (d !! key) as [v|]; simpl; [by apply Hsome | by apply Hnone].
Qed.

Lemma wp_getitem_known (d : Mapping) key v w
    (post : result Value → World St → Prop) :
  d !! key = Some v → post (Ok v) w → wp (lift (getitem d key)) w post.
Proof. intros Hv Hpost. unfold wp, getitem. by rewrite Hv. Qed.

Lemma wp_dispatch agent (t : Mapping) w
    (post : result Mapping → World St → Prop) :
  (∀ r st',
      post r {| supervisor := st';
                dispatched :=
                  dispatched w
                  ++ [{| to_agent := agent; task := t; reply := r |}];
                log := log w |}) →
  wp (dispatch agent t) w post.
Proof.
  intros Hpost. unfold wp, dispatch.
  destruct (execute_task agent t (supervisor w)) as [r st'].
  apply Hpost.
Qed.

(** One step of a run. *)
Ltac run_step :=
  cbn [supervisor dispatched log source_type destination_type load_mode
       watermark_column schedule_expression required_resources];
  lazymatch goal with
  | |- wp (bind _ _) _ _ => apply wp_bind
  | |- wp (ret _) _ _ => apply wp_ret
  | |- wp (logger_info _ _) _ _ => apply wp_logger_info; intros ?
  | H : ?d !! ?key = Some _ |- wp (lift (getitem ?d ?key)) _ _ =>
      apply (wp_getitem_known _ _ _ _ _ H)
  | |- wp (lift (getitem _ _)) _ _ =>
      apply wp_getitem; [intros ? ? | intros ?]
  | |- wp (dispatch _ _) _ _ =>
      apply wp_dispatch; intros [?|?] ?
  | |- wp (if ?c then _ else _) _ _ =>
      destruct c eqn:?; try discriminate; try congruence
  end.

Ltac run := repeat run_step; cbn [supervisor dispatched log].

Ltac trace_split :=
  eexists; split; [rewrite <- ?app_assoc; reflexivity |].

(** [tac] on every call of a list of calls spelled out. *)
Ltac each_call tac :=
  repeat (apply Forall_cons_2; [tac |]); apply Forall_nil_2.

Ltac plan_followed :=
  unfold follows_plan; simpl;
  (split; [by eexists |]);
  (split; [repeat constructor |]);
  (split; [intros ? [= <-] || (intros ? ?; discriminate) |]);
  try (split; [reflexivity | repeat constructor]);
  (intros ? ? [= <-]; simpl; intros [= <-] || (intros ?; discriminate));
  done.

Ltac deployment_checked :=
  unfold deployment_asked;
  each_call ltac:(cbn [to_agent task]; intros ?;
                  first [discriminate | repeat split; reflexivity]).

(** The value under a key of a result, from the reading of the key. *)
Ltac from_reading :=
  lazymatch goal with
  | |- _ = result_key _ ?key _ =>
      lazymatch goal with
      | H : ?m !! key = Some ?v |- _ =>
          transitivity (Some v); [reflexivity |];
          symmetry; transitivity (m !! key); [reflexivity | exact H]
      end
  | |- result_key _ ?key _ = Some ?v =>
      lazymatch goal with
      | H : ?m !! key = Some v |- _ =>
          transitivity (m !! key); [reflexivity | exact H]
      end
  end.

Ltac not_listed H :=
  exfalso;
  repeat (apply elem_of_cons in H as [H | H]; [discriminate H |]);
  by apply elem_of_nil in H.

Ltac ids_checked :=
  unfold ids_threaded;
  each_call ltac:(
    cbn [to_agent task]; split;
    [ let Hin := fresh in
      intros Hin;
      first [ solve [not_listed Hin]
            | clear Hin; split; [eexists; reflexivity | from_reading] ]
    | let Hc := fresh in
      intros Hc;
      first [ solve [discriminate Hc]
            | clear Hc; split; [reflexivity |];
              split; [eexists; reflexivity | from_reading] ] ]).

Ltac keys_checked :=
  each_call ltac:(
    let Hr := fresh in
    intros ? Hr; cbn [reply] in Hr; injection Hr as <-;
    cbn [to_agent task]; unfold readable; split;
    [ lazymatch goal with
      | |- Forall _ (keys_read ?a ?t) =>
          let ks := eval vm_compute in (keys_read a t) in
          change (keys_read a t) with ks
      end;
      repeat (apply Forall_cons_2;
              [lazymatch goal with
               | H : ?m !! ?k = Some _ |- is_Some (?m !! ?k) =>
                   rewrite H; by eexists
               end |]);
      apply Forall_nil_2
    | let Hc := fresh in
      intros Hc ?;
      first [ discriminate Hc
            | congruence
            | lazymatch goal with
              | H : ?m !! ?k = Some _ |- is_Some (?m !! ?k) =>
                  rewrite H; by eexists
              end ] ]).

Ltac summary_checked :=
  first
    [ (intros ? ?; discriminate)
    | let c := fresh in
      intros c [= <-]; split;
      [ unfold summarized;
        cbn [status pipeline_id pipeline_name infrastructure quality monitoring];
        repeat split; first [from_reading | reflexivity]
      | keys_checked ] ].

(** The call among those spelled out whose result lacks the key. *)
Ltac find_missing :=
  first [ apply Exists_cons_hd; eexists; split; [reflexivity | eassumption]
        | apply Exists_cons_tl; find_missing ].

(** A call that raised is among the calls that all returned. *)
Ltac some_call_raised H :=
  cbn [app] in H;
  repeat (let Hd := fresh in
          apply Forall_cons in H as [Hd H];
          cbn [returned reply] in Hd; try discriminate Hd).

Ltac raised_checked :=
  unfold raised_on_missing_key;
  let Hr := fresh in
  let Hall := fresh in
  intros ? Hr Hall;
  first
    [ discriminate Hr
    | injection Hr as <-;
      first
        [ eexists; split; [reflexivity |]; cbn [app]; find_missing
        | exfalso;
          lazymatch goal with
          | H : _ !! _ = None |- _ => vm_compute in H; discriminate H
          end
        | exfalso; solve [some_call_raised Hall] ] ].

(** The calls of a run of [create_pipeline], whatever the supervisor
    does. *)
Lemma create_pipeline_run config source destination schedule
    quality_checks cost_optimize w :
  ∃ done,
    dispatched (create_pipeline config source destination schedule
                  quality_checks cost_optimize w).2
    = dispatched w ++ done
    ∧ run_shape config source quality_checks cost_optimize done
        (create_pipeline config source destination schedule
           quality_checks cost_optimize w).1.
Proof.
  change (wp (create_pipeline config source destination schedule
                quality_checks cost_optimize) w
            (λ r w', ∃ done,
                dispatched w' = dispatched w ++ done
                ∧ run_shape config source quality_checks cost_optimize
                    done r)).
  unfold create_pipeline, _analyze_requirements, run_shape, plan, incremental,
    source_type_of.
  destruct (bool_decide (_detect_source_type (before_first_dot source)
                           ∈ ["sqlserver"; "postgresql"; "mysql"]));
    destruct quality_checks, cost_optimize; cbv zeta.
  all: run.
  all: trace_split.
  all: split; [plan_followed |].
  all: split; [deployment_checked |].
  all: split; [ids_checked |].
  all: split; [summary_checked | raised_checked].
Qed.

(** X6: whatever the supervisor does, [create_pipeline] asks the agents
    in the order of the plan, one call after the other: the watermark
    detection for a relational source, the infrastructure, the pipeline,
    the data quality when it is enabled, the deployment, the monitoring,
    the cost optimizer when it is enabled.  A call is made only after
    every earlier call has returned, no call is repeated, and a call that
    raises ends the run with its exception; a run that returns has asked
    the whole plan and every call has returned. *)
Theorem create_pipeline_follows_plan config source destination schedule
    quality_checks cost_optimize w :
  ∃ done,
    dispatched (create_pipeline config source destination schedule
                  quality_checks cost_optimize w).2
    = dispatched w ++ done
    ∧ to_agent <$> done `prefix_of` plan source quality_checks cost_optimize
    ∧ Forall (λ d, returned d = true) (removelast done)
    ∧ (∀ created,
          (create_pipeline config source destination schedule
             quality_checks cost_optimize w).1 = Ok created →
          to_agent <$> done = plan source quality_checks cost_optimize
          ∧ Forall (λ d, returned d = true) done)
    ∧ (∀ d e,
          last done = Some d → reply d = Raised e →
          (create_pipeline config source destination schedule
             quality_checks cost_optimize w).1 = Raised e).
Proof.
  destruct (create_pipeline_run config source destination schedule
              quality_checks cost_optimize w)
    as (done & Hdone & Hplan & _).
  exists done. split; [exact Hdone |]. exact Hplan.
Qed.

(** X7: every task that [create_pipeline] hands to the deployment agent
    asks for a deployment to [production] with a smoke test, whatever the
    environment of the configuration, and asks for an approval exactly
    when that environment is [prod]. *)
Theorem create_pipeline_deploys_to_production config source destination
    schedule quality_checks cost_optimize w :
  ∃ done,
    dispatched (create_pipeline config source destination schedule
                  quality_checks cost_optimize w).2
    = dispatched w ++ done
    ∧ ∀ d, d ∈ done → to_agent d = "deployment" →
           task d !! "action" = Some (VStr "deploy")
           ∧ task d !! "environment" = Some (VStr "production")
           ∧ task d !! "run_smoke_test" = Some (VBool true)
           ∧ task d !! "require_approval"
             = Some (VBool (bool_decide (config_environment config = "prod"))).
Proof.
  destruct (create_pipeline_run config source destination schedule
              quality_checks cost_optimize w)
    as (done & Hdone & _ & Hdeployment & _).
  exists done. split; [exact Hdone |].
  intros d Hd. unfold deployment_asked in Hdeployment.
  rewrite Forall_forall in Hdeployment. by apply Hdeployment.
Qed.

(** X8: every task that [create_pipeline] hands to the data quality, the
    deployment, the monitoring and the cost optimizer agent carries, as
    [pipeline_id], the pipeline id in the result of the creation; the
    creation task carries, as [data_factory_id], the data factory id in
    the result of the provisioning. *)
Theorem create_pipeline_threads_ids config source destination schedule
    quality_checks cost_optimize w :
  ∃ done,
    dispatched (create_pipeline config source destination schedule
                  quality_checks cost_optimize w).2
    = dispatched w ++ done
    ∧ (∀ d, d ∈ done →
            to_agent d ∈ ["data-quality"; "deployment"; "monitoring";
                          "cost-optimizer"] →
            is_Some (task d !! "pipeline_id")
            ∧ task d !! "pipeline_id" = result_key is_create "pipeline_id" done)
    ∧ (∀ d, d ∈ done → is_create d = true →
            to_agent d = "pipeline"
            ∧ is_Some (task d !! "data_factory_id")
            ∧ task d !! "data_factory_id"
              = result_key (asked "infrastructure") "data_factory_id" done).
Proof.
  destruct (create_pipeline_run config source destination schedule
              quality_checks cost_optimize w)
    as (done & Hdone & _ & _ & Hids & _).
  exists done. split; [exact Hdone |].
  unfold ids_threaded in Hids. rewrite Forall_forall in Hids.
  split; intros d Hd; by apply Hids.
Qed.

(** X9: a run of [create_pipeline] that returns reports the status
    [active], also when the smoke test did not pass, with the id and the
    name in the result of the creation, the results of the provisioning
    and of the monitoring as they came, and for the quality the result of
    the data quality agent or, when the quality checks are off, a count
    of zero rules without any call to that agent. *)
Theorem create_pipeline_summary config source destination schedule
    quality_checks cost_optimize w created w' :
  create_pipeline config source destination schedule
    quality_checks cost_optimize w = (Ok created, w') →
  ∃ done,
    dispatched w' = dispatched w ++ done
    ∧ status created = "active"
    ∧ result_key is_create "pipeline_id" done = Some (pipeline_id created)
    ∧ result_key is_create "pipeline_name" done = Some (pipeline_name created)
    ∧ result_of (asked "infrastructure") done = Some (infrastructure created)
    ∧ result_of (asked "monitoring") done = Some (monitoring created)
    ∧ (if quality_checks
       then result_of (asked "data-quality") done = Some (quality created)
       else quality created = {[ "rules_created" := VNum 0 ]}
            ∧ "data-quality" ∉ to_agent <$> done).
Proof.
  intros Hrun.
  destruct (create_pipeline_run config source destination schedule
              quality_checks cost_optimize w)
    as (done & Hdone & Hplan & _ & _ & Hreturned & _).
  rewrite Hrun in Hdone, Hplan, Hreturned. simpl in Hdone, Hplan, Hreturned.
  destruct (Hreturned created eq_refl)
    as [(Hstatus & Hid & Hname & Hinfra & Hmonitoring & Hquality) _].
  exists done. repeat (split; [done |]).
  destruct quality_checks; [done |]. split; [done |].
  destruct Hplan as (_ & _ & Hwhole & _).
  destruct (Hwhole created eq_refl) as [-> _].
  unfold plan. destruct (incremental source), cost_optimize; simpl;
    intros Hin;
    repeat (apply elem_of_cons in Hin as [Hin | Hin]; [discriminate Hin |]);
    by apply elem_of_nil in Hin.
Qed.

(** X10: a run of [create_pipeline] returns only if every result held the
    keys that are read from it, also those that are read for the log
    alone: the counts and the cost of the provisioning, the name and the
    next run time of the pipeline, the outcome of the smoke test, the
    alert count and the dashboard address, and the savings when the cost
    optimizer announces some.  A run that raises although the supervisor
    returned from every call made raises the [KeyError] of a key that the
    result of one of these calls does not hold. *)
Theorem create_pipeline_reads_keys config source destination schedule
    quality_checks cost_optimize w :
  ∃ done,
    dispatched (create_pipeline config source destination schedule
                  quality_checks cost_optimize w).2
    = dispatched w ++ done
    ∧ (∀ created,
          (create_pipeline config source destination schedule
             quality_checks cost_optimize w).1 = Ok created →
          ∀ d result, d ∈ done → reply d = Ok result →
                      readable (to_agent d) (task d) result)
    ∧ (∀ e,
          (create_pipeline config source destination schedule
             quality_checks cost_optimize w).1 = Raised e →
          Forall (λ d, returned d = true) done →
          ∃ key d result,
            e = KeyError key
            ∧ d ∈ done ∧ reply d = Ok result ∧ result !! key = None).
Proof.
  destruct (create_pipeline_run config source destination schedule
              quality_checks cost_optimize w)
    as (done & Hdone & _ & _ & _ & Hreturned & Hraised).
  exists done. split; [exact Hdone |]. split.
  - intros created Hrun. destruct (Hreturned created Hrun) as [_ Hkeys].
    intros d result Hd. rewrite Forall_forall in Hkeys. by apply Hkeys.
  - intros e Hrun Hall.
    destruct (Hraised e Hrun Hall) as (key & -> & Hmissing).
    apply Exists_exists in Hmissing as (d & Hd & result & Hreply & Hnone).
    by exists key, d, result.
Qed.

(** ** A supervisor that can be relied on *)

Lemma wp_dispatch_reliable agent (t : Mapping) w
    (post : result Mapping → World St → Prop) :
  reliable St →
  (∀ result st',
      readable agent t result →
      post (Ok result)
        {| supervisor := st';
           dispatched :=
             dispatched w
             ++ [{| to_agent := agent; task := t; reply := Ok result |}];
           log := log w |}) →
  wp (dispatch agent t) w post.
Proof.
  intros Hreliable Hpost. unfold wp, dispatch.
  destruct (Hreliable agent t (supervisor w)) as (result & st' & -> & Hreadable).
  by apply Hpost.
Qed.

(** The keys of a readable result, one hypothesis for each. *)
Ltac read_keys H :=
  lazymatch type of H with
  | Forall _ (keys_read ?a ?t) =>
      let ks := eval vm_compute in (keys_read a t) in
      change (keys_read a t) with ks in H;
      repeat (apply Forall_cons in H as [[? ?] H]);
      clear H
  end.

Ltac reliable_step Hreliable :=
  cbn [supervisor dispatched log source_type destination_type load_mode
       watermark_column schedule_expression required_resources];
  lazymatch goal with
  | |- wp (bind _ _) _ _ => apply wp_bind
  | |- wp (ret _) _ _ => apply wp_ret
  | |- wp (logger_info _ _) _ _ => apply wp_logger_info; intros ?
  | H : ?d !! ?key = Some _ |- wp (lift (getitem ?d ?key)) _ _ =>
      apply (wp_getitem_known _ _ _ _ _ H)
  | |- wp (lift (getitem _ _)) _ _ =>
      let Hnone := fresh "Hnone" in
      apply wp_getitem;
      [intros ? ? | intros Hnone; vm_compute in Hnone; discriminate Hnone]
  | |- wp (dispatch _ _) _ _ =>
      let Hkeys := fresh "Hkeys" in
      let Hsavings := fresh "Hsavings" in
      apply (wp_dispatch_reliable _ _ _ _ Hreliable);
      intros ? ? [Hkeys Hsavings]; read_keys Hkeys
  | |- wp (if truthy ?v then _ else _) _ _ =>
      let Htruthy := fresh "Htruthy" in
      destruct (truthy v) eqn:Htruthy;
      [ lazymatch goal with
        | Hs : "cost-optimizer" = "cost-optimizer" → _ → is_Some _ |- _ =>
            destruct (Hs eq_refl ltac:(first [exact Htruthy | reflexivity]))
              as [? ?]
        end | ]
  | |- wp (if ?c then _ else _) _ _ =>
      destruct c eqn:?; try discriminate; try congruence
  end.

(** X11: with a supervisor that returns from every call with a result
    holding the keys read from it, [create_pipeline] returns, for every
    source, destination, schedule and choice of the optional steps. *)
Theorem create_pipeline_returns config source destination schedule
    quality_checks cost_optimize w :
  reliable St →
  ∃ created w',
    create_pipeline config source destination schedule
      quality_checks cost_optimize w = (Ok created, w').
Proof.
  intros Hreliable.
  assert (Hrun : wp (create_pipeline config source destination schedule
                       quality_checks cost_optimize) w
                   (λ r _, ∃ created, r = Ok created)).
  { unfold create_pipeline, _analyze_requirements.
    destruct (bool_decide (_detect_source_type (before_first_dot source)
                             ∈ ["sqlserver"; "postgresql"; "mysql"]));
      destruct quality_checks, cost_optimize; cbv zeta.
    all: repeat reliable_step Hreliable.
    all: eexists; reflexivity. }
  unfold wp in Hrun. destruct Hrun as [created Hcreated].
  exists created, (create_pipeline config source destination schedule
                     quality_checks cost_optimize w).2.
  rewrite <- Hcreated. by destruct (create_pipeline _ _ _ _ _ _ w).
Qed.

(** ** Requirement analysis *)

(** X12: for a source that is no relational database, requirement
    analysis asks no agent and changes nothing: it answers the load mode
    [full] with no watermark column.  For a relational source it asks the
    pipeline agent once for the watermark column of the source; when the
    agent returns, the load mode is [incremental] and the watermark
    column is the one in the result, or [modified_date] when the result
    has no such key; when the agent raises, the analysis raises the
    same. *)
Theorem analyze_requirements_watermark source destination schedule w :
  (incremental source = false →
   ∃ requirements,
     _analyze_requirements source destination schedule w = (Ok requirements, w)
     ∧ load_mode requirements = "full"
     ∧ watermark_column requirements = VNone)
  ∧ (incremental source = true →
     ∃ r,
       dispatched (_analyze_requirements source destination schedule w).2
       = dispatched w
         ++ [{| to_agent := "pipeline";
                task := {[ "action" := VStr "detect_watermark_column";
                           "source" := VStr source ]};
                reply := r |}]
       ∧ match r with
         | Ok result =>
             ∃ requirements,
               (_analyze_requirements source destination schedule w).1
               = Ok requirements
               ∧ load_mode requirements = "incremental"
               ∧ watermark_column requirements
                 = default (VStr "modified_date")
                     (result !! "watermark_column")
         | Raised e =>
             (_analyze_requirements source destination schedule w).1
             = Raised e
         end).
Proof.
  unfold incremental, source_type_of, _analyze_requirements. cbv zeta.
  split; intros ->.
  - destruct (decide ("full" = "incremental")) as [? | _]; [done |].
    eexists. by repeat split.
  - destruct (decide ("incremental" = "incremental")) as [_ | ?]; [|done].
    unfold bind, dispatch, ret.
    destruct (execute_task "pipeline" _ (supervisor w)) as [r st'].
    exists r. destruct r as [result | e]; cbn [fst snd dispatched].
    + split; [reflexivity |]. eexists. split; [reflexivity |]. by split.
    + by split.
Qed.

End Orchestration.

Lemma steady_supervisor_reliable : reliable unit.
Proof.
  intros agent task []. exists (ScriptedSupervisor.full_reply agent task), tt.
  split; [reflexivity |].
  unfold readable, keys_read, ScriptedSupervisor.full_reply.
  destruct (asks_watermark task).
  { split; [apply Forall_nil_2 | by intros _ ?]. }
  repeat (destruct (decide _) as [-> | ?];
          [split; [repeat (apply Forall_cons_2; [by eexists |]);
                   apply Forall_nil_2
                  | intros; try done; by eexists] |]).
  split; [apply Forall_nil_2 | done].
Qed.

(** ** The pipeline creator at work on the scripted supervisor *)

Section PipelineWitnesses.

Import PipelineCreation.

(** X9 at a run without quality checks whose smoke test does not pass. *)
Lemma create_pipeline_summary_witness :
  match create_pipeline Scripted.dev "sqlserver-prod.dbo.sales_orders"
          "datalake-bronze.sales" "daily-2am" false true
          (ScriptedSupervisor.start [])
  with
  | (Ok created, _) =>
      status created = "active"
      ∧ quality created = {[ "rules_created" := VNum 0 ]}
  | (Raised _, _) => False
  end.
Proof.
  destruct (create_pipeline Scripted.dev "sqlserver-prod.dbo.sales_orders"
              "datalake-bronze.sales" "daily-2am" false true
              (ScriptedSupervisor.start []))
    as [[created|e] w'] eqn:Hrun; [|by vm_compute in Hrun].
  destruct (create_pipeline_summary _ _ _ _ _ _ _ _ _ Hrun)
    as (done & _ & Hstatus & _ & _ & _ & _ & Hquality & _).
  by split.
Defined.

(** X10 at a full run, and at a run in which the monitoring agent
    returns a result without the dashboard address. *)
Lemma create_pipeline_reads_keys_witness :
  (∀ d result,
      d ∈ dispatched
            (create_pipeline Scripted.dev "sqlserver-prod.dbo.sales_orders"
               "datalake-bronze.sales" "daily-2am" true true
               (ScriptedSupervisor.start [])).2 →
      reply d = Ok result → readable (to_agent d) (task d) result)
  ∧ (∃ key d result,
        (create_pipeline Scripted.dev "sqlserver-prod.dbo.sales_orders"
           "datalake-bronze.sales" "daily-2am" true true
           (ScriptedSupervisor.start ScriptedSupervisor.no_dashboard)).1
        = Raised (KeyError key)
        ∧ d ∈ dispatched
                (create_pipeline Scripted.dev "sqlserver-prod.dbo.sales_orders"
                   "datalake-bronze.sales" "daily-2am" true true
                   (ScriptedSupervisor.start ScriptedSupervisor.no_dashboard)).2
        ∧ reply d = Ok result ∧ result !! key = None).
Proof.
  split.
  - destruct (create_pipeline Scripted.dev "sqlserver-prod.dbo.sales_orders"
                "datalake-bronze.sales" "daily-2am" true true
                (ScriptedSupervisor.start []))
      as [[created|e] w'] eqn:Hrun; [|by vm_compute in Hrun].
    destruct (create_pipeline_reads_keys Scripted.dev
                "sqlserver-prod.dbo.sales_orders" "datalake-bronze.sales"
                "daily-2am" true true (ScriptedSupervisor.start []))
      as (done & Hdone & Hkeys & _).
    rewrite Hrun in Hdone, Hkeys. simpl in Hdone. simpl. rewrite Hdone.
    exact (Hkeys created eq_refl).
  - destruct (create_pipeline Scripted.dev "sqlserver-prod.dbo.sales_orders"
                "datalake-bronze.sales" "daily-2am" true true
                (ScriptedSupervisor.start ScriptedSupervisor.no_dashboard))
      as [[created|e] w'] eqn:Hrun; [by vm_compute in Hrun |].
    destruct (create_pipeline_reads_keys Scripted.dev
                "sqlserver-prod.dbo.sales_orders" "datalake-bronze.sales"
                "daily-2am" true true
                (ScriptedSupervisor.start ScriptedSupervisor.no_dashboard))
      as (done & Hdone & _ & Hraised).
    rewrite Hrun in Hdone, Hraised. simpl in Hdone. simpl. rewrite Hdone.
    assert (Hall : Forall (λ d, returned d = true) done).
    { vm_compute in Hrun. injection Hrun as _ <-.
      cbn [dispatched] in Hdone. subst done.
      repeat (apply Forall_cons_2; [reflexivity |]). apply Forall_nil_2. }
    clear Hrun.
    destruct (Hraised e eq_refl Hall)
      as (key & d & result & -> & Hd & Hreply & Hnone).
    exists key, d, result.
    split; [reflexivity |]. split; [exact Hd |]. split; assumption.
Defined.

(** X11 at the supervisor that always gives the full result. *)
Lemma create_pipeline_returns_witness :
  ∃ created w',
    create_pipeline Scripted.dev "sqlserver-prod.dbo.sales_orders"
      "datalake-bronze.sales" "daily-2am" true true
      ScriptedSupervisor.steady_start
    = (Ok created, w').
Proof.
  apply create_pipeline_returns, steady_supervisor_reliable.
Defined.

(** X12 at a blob store, which is no relational source, and at a SQL
    Server whose agent returns no watermark column. *)
Lemma analyze_requirements_watermark_witness :
  (∃ requirements,
      _analyze_requirements "blob-raw.container.events" "datalake-bronze.events"
        "hourly" (ScriptedSupervisor.start [Some (Raised (AgentError "unused"))])
      = (Ok requirements,
         ScriptedSupervisor.start [Some (Raised (AgentError "unused"))])
      ∧ load_mode requirements = "full"
      ∧ watermark_column requirements = VNone)
  ∧ (_analyze_requirements "sqlserver-prod.dbo.sales_orders"
       "datalake-bronze.sales" "daily-2am"
       (ScriptedSupervisor.start [Some (Ok ∅)])).1
    = Ok {| source_type := "sqlserver";
            destination_type := "data_lake";
            load_mode := "incremental";
            watermark_column := VStr "modified_date";
            schedule_expression := "0 2 * * *";
            required_resources :=
              ["data_factory"; "storage_account"; "integration_runtime"] |}.
Proof.
  split.
  - apply (proj1 (analyze_requirements_watermark "blob-raw.container.events"
                    "datalake-bronze.events" "hourly"
                    (ScriptedSupervisor.start
                       [Some (Raised (AgentError "unused"))]))).
    reflexivity.
  - destruct (proj2 (analyze_requirements_watermark
                       "sqlserver-prod.dbo.sales_orders"
                       "datalake-bronze.sales" "daily-2am"
                       (ScriptedSupervisor.start [Some (Ok ∅)])) eq_refl)
      as (r & _ & _).
    by vm_compute.
Defined.

End PipelineWitnesses.

(** * Further properties of the cost review *)

(** ** What a run never does *)

Section Frames.

Context {St : Type} `{!CostOptimizerAgent St} `{!Rendering}.
Implicit Types (config : AgentConfig) (w : World St) (acc : Results).

Lemma keeps_bind {A B} (kept : World St → World St → Prop)
    `{!Transitive kept} (m : M St A) (f : A → M St B) :
  keeps kept m → (∀ a, keeps kept (f a)) → keeps kept (bind m f).
Proof.
  intros Hm Hf w. unfold bind. specialize (Hm w).
  destruct (m w) as [[a|e] w1]; simpl in *; [|done].
  etrans; [exact Hm | apply Hf].
Qed.

Lemma keeps_ret {A} (kept : World St → World St → Prop) `{!Reflexive kept}
    (a : A) :
  keeps kept (ret a).
Proof. intros w. simpl. reflexivity. Qed.

Lemma keeps_lift {A} (kept : World St → World St → Prop) `{!Reflexive kept}
    (r : result A) :
  keeps kept (lift r).
Proof. intros w. destruct r; simpl; reflexivity. Qed.

Lemma keeps_for_each {A B} (kept : World St → World St → Prop)
    `{!Reflexive kept} `{!Transitive kept}
    (body : A → B → M St B) xs (b : B) :
  (∀ x b, keeps kept (body x b)) → keeps kept (for_each body xs b).
Proof.
  intros Hbody. revert b. induction xs as [|x xs IH]; intros b; simpl.
  - apply keeps_ret, _.
  - apply keeps_bind; [done | apply Hbody | apply IH].
Qed.

#[local] Instance nothing_applied_reflexive : Reflexive (@nothing_applied St).
Proof. by intros w. Qed.

#[local] Instance nothing_applied_transitive : Transitive (@nothing_applied St).
Proof. intros w1 w2 w3. unfold nothing_applied. congruence. Qed.

#[local] Instance nothing_sent_reflexive : Reflexive (@nothing_sent St).
Proof. by intros w. Qed.

#[local] Instance nothing_sent_transitive : Transitive (@nothing_sent St).
Proof. intros w1 w2 w3. unfold nothing_sent. congruence. Qed.

#[local] Instance only_low_risk_applied_reflexive
  : Reflexive (@only_low_risk_applied St).
Proof. intros w. exists []. by rewrite app_nil_r. Qed.

#[local] Instance only_low_risk_applied_transitive
  : Transitive (@only_low_risk_applied St).
Proof.
  intros w1 w2 w3 (calls & Hcalls & Hlow) (calls' & Hcalls' & Hlow').
  exists (calls ++ calls'). split.
  - by rewrite Hcalls', Hcalls, <- app_assoc.
  - by apply Forall_app.
Qed.

Lemma nothing_applied_only_low_risk {A} (m : M St A) :
  keeps nothing_applied m → keeps only_low_risk_applied m.
Proof.
  intros Hm w. exists []. rewrite app_nil_r. split; [apply Hm | done].
Qed.

Lemma call_agent_keeps {A} (method : St → result A * St) :
  keeps nothing_applied (call_agent method)
  ∧ keeps nothing_sent (call_agent method).
Proof.
  split; intros w; unfold call_agent;
    by destruct (method (agent w)) as [r st'].
Qed.

Lemma logger_info_keeps line :
  keeps nothing_applied (logger_info (St := St) line)
  ∧ keeps nothing_sent (logger_info (St := St) line).
Proof. by split; intros w. Qed.

Lemma analyze_spend_keeps :
  keeps nothing_applied _analyze_spend ∧ keeps nothing_sent _analyze_spend.
Proof.
  split; (apply keeps_bind; [apply _ | apply call_agent_keeps |]);
    intros analysis; apply keeps_ret, _.
Qed.

Lemma log_top_cost_drivers_keeps spend_analysis :
  keeps nothing_applied (log_top_cost_drivers (St := St) spend_analysis)
  ∧ keeps nothing_sent (log_top_cost_drivers (St := St) spend_analysis).
Proof.
  split; intros w; by rewrite log_top_cost_drivers_run.
Qed.

Lemma pending_body_keeps line opp acc :
  keeps nothing_applied (pending_body (St := St) line opp acc)
  ∧ keeps nothing_sent (pending_body (St := St) line opp acc).
Proof. by split; intros w. Qed.

Lemma low_risk_body_keeps config flag opp acc :
  keeps nothing_sent (low_risk_body config flag opp acc)
  ∧ (is_low opp → keeps only_low_risk_applied (low_risk_body config flag opp acc))
  ∧ (auto_apply config flag = false →
     keeps nothing_applied (low_risk_body config flag opp acc)).
Proof.
  split; [|split].
  - intros w. destruct (auto_apply config flag) eqn:Hgate.
    + rewrite low_risk_body_open by done.
      destruct (apply_optimization opp (agent w)) as [[result|e] st']; [|done].
      destruct (success result); [done |]. by destruct (error result).
    + by rewrite low_risk_body_shut.
  - intros Hlow w. destruct (auto_apply config flag) eqn:Hgate.
    + exists [opp]. split; [by apply low_risk_body_calls |].
      by apply Forall_singleton.
    + rewrite low_risk_body_shut by done. exists []. simpl.
      by rewrite app_nil_r.
  - intros Hgate w. by rewrite low_risk_body_shut.
Qed.

Lemma low_risk_loop_keeps config flag opps acc :
  keeps nothing_sent (for_each (low_risk_body config flag) opps acc)
  ∧ (Forall is_low opps →
     keeps only_low_risk_applied (for_each (low_risk_body config flag) opps acc))
  ∧ (auto_apply config flag = false →
     keeps nothing_applied (for_each (low_risk_body config flag) opps acc)).
Proof.
  split; [|split].
  - apply keeps_for_each; try apply _. intros. apply low_risk_body_keeps.
  - intros Hlow. revert acc. induction Hlow as [|opp opps Hopp Hopps IH];
      intros acc; simpl.
    + apply keeps_ret, _.
    + apply keeps_bind; [apply _ | by apply low_risk_body_keeps | apply IH].
  - intros Hgate. apply keeps_for_each; try apply _.
    intros. by apply low_risk_body_keeps.
Qed.

Lemma execute_keeps config categorized flag :
  keeps nothing_sent (_execute_optimizations config categorized flag)
  ∧ (Forall is_low (low_risk categorized) →
     keeps only_low_risk_applied
       (_execute_optimizations config categorized flag))
  ∧ (auto_apply config flag = false →
     keeps nothing_applied (_execute_optimizations config categorized flag)).
Proof.
  unfold _execute_optimizations. split; [|split].
  - apply keeps_bind; [apply _ | apply low_risk_loop_keeps |]. intros acc1.
    apply keeps_bind; [apply _ | |]; [apply keeps_for_each; try apply _;
                                       intros; apply pending_body_keeps |].
    intros acc2.
    apply keeps_bind; [apply _ | |]; [apply keeps_for_each; try apply _;
                                       intros; apply pending_body_keeps |].
    intros acc3. apply keeps_ret, _.
  - intros Hlow.
    apply keeps_bind; [apply _ | by apply low_risk_loop_keeps |]. intros acc1.
    apply nothing_applied_only_low_risk.
    apply keeps_bind; [apply _ | |]; [apply keeps_for_each; try apply _;
                                       intros; apply pending_body_keeps |].
    intros acc2.
    apply keeps_bind; [apply _ | |]; [apply keeps_for_each; try apply _;
                                       intros; apply pending_body_keeps |].
    intros acc3. apply keeps_ret, _.
  - intros Hgate.
    apply keeps_bind; [apply _ | by apply low_risk_loop_keeps |]. intros acc1.
    apply keeps_bind; [apply _ | |]; [apply keeps_for_each; try apply _;
                                       intros; apply pending_body_keeps |].
    intros acc2.
    apply keeps_bind; [apply _ | |]; [apply keeps_for_each; try apply _;
                                       intros; apply pending_body_keeps |].
    intros acc3. apply keeps_ret, _.
Qed.

Lemma send_notifications_keeps config report :
  keeps nothing_applied (_send_notifications (St := St) config report).
Proof. intros w. by rewrite send_notifications_run. Qed.

Lemma categorized_low_risk opportunities :
  Forall is_low (low_risk (_categorize_opportunities opportunities)).
Proof.
  unfold _categorize_opportunities. rewrite categorize_from. simpl.
  apply Forall_forall. intros opp Hopp.
  by apply list_elem_of_filter in Hopp as [Hlow _].
Qed.

(** The step 4 of the review. *)
Lemma step_4_keeps config dry_run flag categorized :
  keeps nothing_sent
    (if negb dry_run then _execute_optimizations config categorized flag
     else ret no_results)
  ∧ (Forall is_low (low_risk categorized) →
     keeps only_low_risk_applied
       (if negb dry_run then _execute_optimizations config categorized flag
        else ret no_results))
  ∧ (dry_run = true ∨ auto_apply config flag = false →
     keeps nothing_applied
       (if negb dry_run then _execute_optimizations config categorized flag
        else ret no_results)).
Proof.
  destruct dry_run; simpl.
  - split; [|split]; intros; apply keeps_ret, _.
  - split; [|split]; [apply execute_keeps | apply execute_keeps |].
    intros [? | Hgate]; [done |]. by apply execute_keeps.
Qed.

(** X13: whatever the agent does and however the run ends, the review
    hands to [apply_optimization] opportunities of risk level [low] only;
    in a dry run, in the environment [prod] and without the auto-approve
    flag it hands over nothing at all. *)
Theorem review_applies_low_risk_only config dry_run flag w :
  (∃ calls,
      apply_calls (run_weekly_review config dry_run flag w).2
      = apply_calls w ++ calls
      ∧ Forall (λ opp, risk_level opp = "low") calls)
  ∧ (dry_run = true ∨ config_environment config = "prod" ∨ flag = false →
     apply_calls (run_weekly_review config dry_run flag w).2 = apply_calls w).
Proof.
  split.
  - assert (Hkeeps : keeps only_low_risk_applied
                       (run_weekly_review config dry_run flag)).
    { unfold run_weekly_review.
      apply keeps_bind; [apply _ | |].
      { apply nothing_applied_only_low_risk, analyze_spend_keeps. }
      intros spend_analysis. apply keeps_bind; [apply _ | |].
      { apply nothing_applied_only_low_risk, log_top_cost_drivers_keeps. }
      intros _. apply keeps_bind; [apply _ | |].
      { apply nothing_applied_only_low_risk, call_agent_keeps. }
      intros opportunities. apply keeps_bind; [apply _ | |].
      { apply step_4_keeps, categorized_low_risk. }
      intros results. apply keeps_bind; [apply _ | apply keeps_lift, _ |].
      intros report. apply keeps_bind; [apply _ | |].
      { apply nothing_applied_only_low_risk, send_notifications_keeps. }
      intros _. apply keeps_ret, _. }
    apply Hkeeps.
  - intros Hshut.
    assert (Hshut' : dry_run = true ∨ auto_apply config flag = false).
    { destruct Hshut as [? | Hshut]; [by left | right].
      destruct (auto_apply config flag) eqn:Hgate; [|done].
      apply auto_apply_spec in Hgate as [? ?].
      destruct Hshut; congruence. }
    assert (Hkeeps : keeps nothing_applied
                       (run_weekly_review config dry_run flag)).
    { unfold run_weekly_review.
      apply keeps_bind; [apply _ | apply analyze_spend_keeps |].
      intros spend_analysis.
      apply keeps_bind; [apply _ | apply log_top_cost_drivers_keeps |].
      intros _. apply keeps_bind; [apply _ | apply call_agent_keeps |].
      intros opportunities.
      apply keeps_bind; [apply _ | by apply step_4_keeps |].
      intros results. apply keeps_bind; [apply _ | apply keeps_lift, _ |].
      intros report.
      apply keeps_bind; [apply _ | apply send_notifications_keeps |].
      intros _. apply keeps_ret, _. }
    apply Hkeeps.
Qed.

Lemma silent_bind {A B} (m : M St A) (f : A → M St B) :
  keeps nothing_sent m → (∀ a, silent_when_raising (f a)) →
  silent_when_raising (bind m f).
Proof.
  intros Hm Hf w e. unfold bind. specialize (Hm w).
  destruct (m w) as [[a|e'] w1]; simpl in *.
  - intros Hraised. rewrite <- Hm. by apply (Hf a w1 e).
  - by intros _.
Qed.

(** The run has sent nothing when it raises. *)
Lemma run_silent_when_raising config dry_run flag :
  silent_when_raising (run_weekly_review config dry_run flag).
Proof.
  unfold run_weekly_review.
  apply silent_bind; [apply analyze_spend_keeps |]. intros spend_analysis.
  apply silent_bind; [apply log_top_cost_drivers_keeps |]. intros _.
  apply silent_bind; [apply call_agent_keeps |]. intros opportunities.
  apply silent_bind; [apply step_4_keeps |]. intros results.
  apply silent_bind; [apply keeps_lift, _ |]. intros report.
  intros w e. unfold bind. rewrite send_notifications_run. by simpl.
Qed.

(** What a review that returns has handed to the transports. *)
Lemma run_outbox config dry_run flag w report w' :
  run_weekly_review config dry_run flag w = (Ok report, w') →
  outbox w'
  = outbox w
    ++ Slack (_format_slack_message report)
       :: (if gt (total_potential_savings (optimization_summary report)) 1000
           then [Email (cost_notification_emails config)
                   (email_subject report) (_format_email report)]
           else []).
Proof.
  intros Hrun.
  apply run_returned in Hrun
    as (spend_analysis & opportunities & results & w3 & w4
        & Hbefore & Hexecute & _ & Hsend).
  assert (Hkept : outbox w4 = outbox w).
  { pose proof (proj1 (step_4_keeps config dry_run flag
                         (_categorize_opportunities opportunities)) w3)
      as Hstep.
    destruct dry_run; simpl in *.
    - by destruct Hexecute as [_ ->].
    - rewrite Hexecute in Hstep. unfold nothing_sent in Hstep. simpl in Hstep.
      by rewrite Hstep. }
  rewrite send_notifications_run in Hsend. injection Hsend as <-.
  simpl. by rewrite Hkept.
Qed.

(** The review is its steps 1 to 5 followed by the notifications. *)
Lemma run_report_then_notify config dry_run flag w :
  run_weekly_review config dry_run flag w
  = (report <- report_of_review config dry_run flag ;;
     _send_notifications config report ;;;
     ret report) w.
Proof.
  unfold run_weekly_review, report_of_review, bind.
  destruct (_analyze_spend w) as [[spend_analysis|e] w1]; [|done].
  destruct (log_top_cost_drivers spend_analysis w1) as [[[]|e] w2]; [|done].
  destruct (call_agent find_opportunities w2) as [[opportunities|e] w3];
    [|done].
  destruct dry_run; simpl.
  - by destruct (lift _ w3) as [[report|e] w5].
  - destruct (_execute_optimizations _ _ _ w3) as [[results|e] w4]; [|done].
    by destruct (lift _ w4) as [[report|e] w5].
Qed.

(** The steps 1 to 5 hand nothing to the transports. *)
Lemma report_of_review_keeps config dry_run flag :
  keeps nothing_sent (report_of_review config dry_run flag).
Proof.
  unfold report_of_review.
  apply keeps_bind; [apply _ | apply analyze_spend_keeps |].
  intros spend_analysis.
  apply keeps_bind; [apply _ | apply log_top_cost_drivers_keeps |].
  intros _. apply keeps_bind; [apply _ | apply call_agent_keeps |].
  intros opportunities.
  apply keeps_bind; [apply _ | apply step_4_keeps |].
  intros results. apply keeps_lift, _.
Qed.

(** X14: the notifications are the last thing a review does, and nothing
    is sent before the report is there.  The review is its steps 1 to 5
    followed by [_send_notifications] on the report they give; the steps
    1 to 5 hand nothing to a transport, whether they give a report or
    raise; when they raise, the review raises the same and has sent
    nothing; and a review that returns has sent one or two
    notifications. *)
Theorem review_notifies_last config dry_run flag w :
  run_weekly_review config dry_run flag w
  = (report <- report_of_review config dry_run flag ;;
     _send_notifications config report ;;;
     ret report) w
  ∧ outbox (report_of_review config dry_run flag w).2 = outbox w
  ∧ (∀ e, (report_of_review config dry_run flag w).1 = Raised e →
          (run_weekly_review config dry_run flag w).1 = Raised e
          ∧ outbox (run_weekly_review config dry_run flag w).2 = outbox w)
  ∧ (∀ report w',
        run_weekly_review config dry_run flag w = (Ok report, w') →
        ∃ sent, outbox w' = outbox w ++ sent ∧ 1 ≤ length sent ≤ 2).
Proof.
  pose proof (report_of_review_keeps config dry_run flag w) as Hkept.
  split; [apply run_report_then_notify |]. split; [exact Hkept |]. split.
  - intros e Hraised. rewrite run_report_then_notify. unfold bind.
    destruct (report_of_review config dry_run flag w) as [[report|e'] w1];
      simpl in *; [done |].
    by injection Hraised as ->.
  - intros report w' Hrun.
    rewrite (run_outbox _ _ _ _ _ _ Hrun). eexists. split; [reflexivity |].
    destruct (gt _ 1000); simpl; lia.
Qed.

(** X15: a failure of the spend analysis ends the review there: the
    exception is passed on, the agent is left as the analysis left it,
    and nothing is applied or sent.  A failure of the discovery of
    opportunities ends it the same way. *)
Theorem review_stops_at_failed_analysis config dry_run flag w :
  (∀ e st',
      analyze_spend (agent w) = (Raised e, st') →
      (run_weekly_review config dry_run flag w).1 = Raised e
      ∧ agent (run_weekly_review config dry_run flag w).2 = st'
      ∧ apply_calls (run_weekly_review config dry_run flag w).2
        = apply_calls w
      ∧ outbox (run_weekly_review config dry_run flag w).2 = outbox w)
  ∧ (∀ analysis st1 e st2,
        analyze_spend (agent w) = (Ok analysis, st1) →
        find_opportunities st1 = (Raised e, st2) →
        (run_weekly_review config dry_run flag w).1 = Raised e
        ∧ agent (run_weekly_review config dry_run flag w).2 = st2
        ∧ apply_calls (run_weekly_review config dry_run flag w).2
          = apply_calls w
        ∧ outbox (run_weekly_review config dry_run flag w).2 = outbox w).
Proof.
  split.
  - intros e st' Hspend.
    unfold run_weekly_review, _analyze_spend, bind, call_agent.
    by rewrite Hspend.
  - intros analysis st1 e st2 Hspend Hfind.
    unfold run_weekly_review, _analyze_spend, bind, call_agent.
    rewrite Hspend. simpl. rewrite log_top_cost_drivers_run. simpl.
    by rewrite Hfind.
Qed.

(** X16: when the spend analysis reports a total cost of zero, the
    review returns no report and sends no notification, whatever the
    opportunities are and whatever was applied before the report was
    due. *)
Theorem review_fails_on_zero_baseline config dry_run flag w analysis st1 :
  analyze_spend (agent w) = (Ok analysis, st1) →
  (total_cost analysis == 0)%Q →
  (∃ e, (run_weekly_review config dry_run flag w).1 = Raised e)
  ∧ outbox (run_weekly_review config dry_run flag w).2 = outbox w.
Proof.
  intros Hspend Hzero.
  assert (Hraised : ∃ e, (run_weekly_review config dry_run flag w).1 = Raised e).
  { destruct (run_weekly_review config dry_run flag w) as [[report|e] w']
      eqn:Hrun; [exfalso | by exists e].
    unfold run_weekly_review in Hrun.
    apply bind_ok in Hrun as (spend_analysis & w1 & Hanalysis & Hrun).
    apply bind_ok in Hrun as ([] & w2 & _ & Hrun).
    apply bind_ok in Hrun as (opportunities & w3 & _ & Hrun).
    apply bind_ok in Hrun as (results & w4 & _ & Hrun).
    apply bind_ok in Hrun as (report' & w5 & Hreport & _).
    apply lift_ok in Hreport as [Hreport _].
    unfold _analyze_spend, bind, call_agent in Hanalysis.
    rewrite Hspend in Hanalysis. injection Hanalysis as <- _.
    unfold _generate_report in Hreport. simpl in Hreport.
    by rewrite truediv_zero in Hreport. }
  split; [exact Hraised |]. destruct Hraised as [e Hraised].
  by apply (run_silent_when_raising config dry_run flag w e).
Qed.

End Frames.

(** ** What a report shows as applied *)



Section Savings.

Context {St : Type} `{!CostOptimizerAgent St} `{!Rendering}.
Implicit Types (config : AgentConfig) (w : World St) (acc : Results).




(** ** The log of the decisions *)

Lemma count_lines_app kind lines lines' :
  count_lines kind (lines ++ lines')
  = count_lines kind lines + count_lines kind lines'.
Proof. unfold count_lines. by rewrite List.filter_app, length_app. Qed.

Lemma low_risk_loop_log config flag opps acc w acc' w' :
  for_each (low_risk_body config flag) opps acc w = (Ok acc', w') →
  ∃ lines,
    log w' = log w ++ lines
    ∧ length lines = length opps
    ∧ applied_count acc' = applied_count acc + count_lines is_applied_line lines
    ∧ skipped_count acc' = skipped_count acc + count_lines is_failed_line lines
    ∧ pending_count acc' = pending_count acc + count_lines is_pending_line lines.
Proof.
  revert acc w. induction opps as [|opp opps IH]; intros acc w Hrun; simpl in *.
  - injection Hrun as <- <-. exists []. rewrite app_nil_r.
    unfold count_lines. simpl. repeat split; lia.
  - apply bind_ok in Hrun as (acc1 & w1 & Hbody & Hrest).
    apply IH in Hrest as (lines & Hlog & Hlength & Happlied & Hskipped & Hpending).
    assert (∃ line,
               log w1 = log w ++ [line]
               ∧ applied_count acc1
                 = applied_count acc + count_lines is_applied_line [line]
               ∧ skipped_count acc1
                 = skipped_count acc + count_lines is_failed_line [line]
               ∧ pending_count acc1
                 = pending_count acc + count_lines is_pending_line [line])
      as (line & Hline & Happlied1 & Hskipped1 & Hpending1).
    { destruct (auto_apply config flag) eqn:Hgate.
      - rewrite low_risk_body_open in Hbody by done.
        destruct (apply_optimization opp (agent w)) as [[result|e] st'];
          [|done].
        destruct (success result).
        + injection Hbody as <- <-. eexists. split; [reflexivity |].
          unfold count_lines. simpl. repeat split; lia.
        + destruct (error result); [|done].
          injection Hbody as <- <-. eexists. split; [reflexivity |].
          unfold count_lines. simpl. repeat split; lia.
      - rewrite low_risk_body_shut in Hbody by done.
        injection Hbody as <- <-. eexists. split; [reflexivity |].
        unfold count_lines. simpl. repeat split; lia. }
    exists (line :: lines). rewrite Hlog, Hline, <- app_assoc. simpl.
    split; [done |]. split; [lia |].
    change (line :: lines) with ([line] ++ lines).
    rewrite !count_lines_app. repeat split; lia.
Qed.

Lemma pending_lines_count line_of (opps : list Opportunity) :
  (∀ t, is_pending_line (line_of t) = true) →
  (∀ t, is_applied_line (line_of t) = false) →
  (∀ t, is_failed_line (line_of t) = false) →
  count_lines is_pending_line ((λ opp, line_of (title opp)) <$> opps)
  = length opps
  ∧ count_lines is_applied_line ((λ opp, line_of (title opp)) <$> opps) = 0
  ∧ count_lines is_failed_line ((λ opp, line_of (title opp)) <$> opps) = 0.
Proof.
  intros Hpending Happlied Hfailed. unfold count_lines.
  induction opps as [|opp opps (IH1 & IH2 & IH3)]; [done |].
  rewrite fmap_cons. cbn [List.filter].
  rewrite Hpending, Happlied, Hfailed. cbn [length].
  by rewrite IH1, IH2, IH3.
Qed.

(** X18: a run of [_execute_optimizations] that returns has logged one
    line for every opportunity of the three buckets, and its counters
    agree with the log: as many applied as lines of success, as many
    skipped as lines of failure, as many pending as lines that ask for an
    approval or a review. *)
Theorem execute_logs_every_decision config categorized flag w results w' :
  _execute_optimizations config categorized flag w = (Ok results, w') →
  ∃ lines,
    log w' = log w ++ lines
    ∧ length lines
      = length (low_risk categorized) + length (medium_risk categorized)
        + length (high_risk categorized)
    ∧ applied_count results = count_lines is_applied_line lines
    ∧ skipped_count results = count_lines is_failed_line lines
    ∧ pending_count results = count_lines is_pending_line lines.
Proof.
  unfold _execute_optimizations. intros Hrun.
  apply bind_ok in Hrun as (acc1 & w1 & Hlow & Hrun).
  apply bind_ok in Hrun as (acc2 & w2 & Hmedium & Hrun).
  apply bind_ok in Hrun as (acc3 & w3 & Hhigh & Hrun).
  injection Hrun as <- <-.
  rewrite pending_loop in Hmedium. injection Hmedium as <- <-.
  rewrite pending_loop in Hhigh. injection Hhigh as <- <-.
  apply low_risk_loop_log in Hlow
    as (lines & Hlog & Hlength & Happlied & Hskipped & Hpending).
  destruct (pending_lines_count LogMediumRisk (medium_risk categorized))
    as (Hm1 & Hm2 & Hm3); [done.. |].
  destruct (pending_lines_count LogHighRisk (high_risk categorized))
    as (Hh1 & Hh2 & Hh3); [done.. |].
  exists (lines
          ++ ((λ opp, LogMediumRisk (title opp)) <$> medium_risk categorized)
          ++ ((λ opp, LogHighRisk (title opp)) <$> high_risk categorized)).
  split; [simpl; by rewrite Hlog, <- !app_assoc |].
  rewrite !count_lines_app, !length_app, !length_fmap.
  rewrite Hm1, Hm2, Hm3, Hh1, Hh2, Hh3. simpl in *.
  repeat split; lia.
Qed.

End Savings.

(** ** Categorizing in parts *)

Lemma filter_apart {A} (P Q : A → Prop)
    `{!∀ x, base.Decision (P x), !∀ x, base.Decision (Q x)} (xs : list A) :
  (∀ x, Q x → ¬ P x) → filter P (filter Q xs) = [].
Proof.
  intros Hapart. induction xs as [|x xs IH]; [done |].
  rewrite (filter_cons Q). destruct (decide (Q x)) as [Hq | Hq]; [|done].
  rewrite filter_cons_False; [done | by apply Hapart].
Qed.

(** X19: categorizing a list in two parts and joining the buckets gives
    the buckets of the whole list; categorizing the three buckets of a
    list, one after the other, gives these buckets again. *)
Theorem categorize_in_parts (xs ys : list Opportunity) :
  (low_risk (_categorize_opportunities (xs ++ ys))
   = low_risk (_categorize_opportunities xs)
     ++ low_risk (_categorize_opportunities ys)
   ∧ medium_risk (_categorize_opportunities (xs ++ ys))
     = medium_risk (_categorize_opportunities xs)
       ++ medium_risk (_categorize_opportunities ys)
   ∧ high_risk (_categorize_opportunities (xs ++ ys))
     = high_risk (_categorize_opportunities xs)
       ++ high_risk (_categorize_opportunities ys))
  ∧ _categorize_opportunities
      (low_risk (_categorize_opportunities xs)
       ++ medium_risk (_categorize_opportunities xs)
       ++ high_risk (_categorize_opportunities xs))
    = _categorize_opportunities xs.
Proof.
  unfold _categorize_opportunities. rewrite !categorize_from. simpl.
  split; [by rewrite !filter_app |].
  rewrite !filter_app.
  rewrite (list_filter_filter_l is_low is_low) by done.
  rewrite (list_filter_filter_l is_medium is_medium) by done.
  rewrite (list_filter_filter_l is_other is_other) by done.
  rewrite (filter_apart is_low is_medium)
    by (unfold is_low, is_medium; congruence).
  rewrite (filter_apart is_low is_other) by (unfold is_low, is_other; tauto).
  rewrite (filter_apart is_medium is_low)
    by (unfold is_low, is_medium; congruence).
  rewrite (filter_apart is_medium is_other)
    by (unfold is_medium, is_other; tauto).
  rewrite (filter_apart is_other is_low) by (unfold is_low, is_other; tauto).
  rewrite (filter_apart is_other is_medium)
    by (unfold is_medium, is_other; tauto).
  simpl. by rewrite !app_nil_r.
Qed.

(** ** The further properties at work on the scripted agent *)

(** X13 in the environment [prod] with the flag set. *)
Lemma review_applies_low_risk_only_witness :
  apply_calls
    (run_weekly_review Scripted.prod false true
       (Scripted.start Scripted.script_used_up)).2 = [].
Proof.
  apply (proj2 (review_applies_low_risk_only Scripted.prod false true
                  (Scripted.start Scripted.script_used_up))).
  right; left. reflexivity.
Defined.

(** X14 at a spend analysis that fails: no report, and nothing sent. *)
Lemma review_notifies_last_witness :
  (run_weekly_review Scripted.dev false true
     (Scripted.start ScriptedRuns.analysis_down)).1
  = Raised (AgentError "cost API down")
  ∧ outbox (run_weekly_review Scripted.dev false true
              (Scripted.start ScriptedRuns.analysis_down)).2 = [].
Proof.
  apply (proj1 (proj2 (proj2 (review_notifies_last Scripted.dev false true
                                (Scripted.start ScriptedRuns.analysis_down))))).
  reflexivity.
Defined.

(** X15 at a spend analysis that fails. *)
Lemma review_stops_at_failed_analysis_witness :
  (run_weekly_review Scripted.dev false true
     (Scripted.start ScriptedRuns.analysis_down)).1
  = Raised (AgentError "cost API down")
  ∧ agent (run_weekly_review Scripted.dev false true
             (Scripted.start ScriptedRuns.analysis_down)).2
    = ScriptedRuns.analysis_down
  ∧ apply_calls (run_weekly_review Scripted.dev false true
                   (Scripted.start ScriptedRuns.analysis_down)).2 = []
  ∧ outbox (run_weekly_review Scripted.dev false true
              (Scripted.start ScriptedRuns.analysis_down)).2 = [].
Proof.
  apply (proj1 (review_stops_at_failed_analysis Scripted.dev false true
                  (Scripted.start ScriptedRuns.analysis_down))).
  reflexivity.
Defined.

(** X16 at a live run over a total cost of zero: both low-risk
    opportunities were applied, and nothing is reported or sent. *)
Lemma review_fails_on_zero_baseline_witness :
  (∃ e, (run_weekly_review Scripted.dev false true
           (Scripted.start ScriptedRuns.nothing_spent)).1 = Raised e)
  ∧ outbox (run_weekly_review Scripted.dev false true
              (Scripted.start ScriptedRuns.nothing_spent)).2 = []
  ∧ length (apply_calls
              (run_weekly_review Scripted.dev false true
                 (Scripted.start ScriptedRuns.nothing_spent)).2) = 2.
Proof.
  destruct (review_fails_on_zero_baseline Scripted.dev false true
              (Scripted.start ScriptedRuns.nothing_spent)
              (Scripted.analysis 0 Scripted.six_drivers)
              ScriptedRuns.nothing_spent)
    as [Hraised Hsilent]; [reflexivity | reflexivity |].
  split; [exact Hraised |]. split; [exact Hsilent | by vm_compute].
Defined.


(** X18 at the execution over the four opportunities. *)
Lemma execute_logs_every_decision_witness :
  match _execute_optimizations Scripted.dev ScriptedRuns.four_categorized true
          (Scripted.start (Scripted.script_with (Ok (Scripted.failed "quota"))))
  with
  | (Ok results, w') =>
      ∃ lines,
        log w' = lines
        ∧ length lines = 4
        ∧ applied_count results = count_lines is_applied_line lines
  | (Raised _, _) => False
  end.
Proof.
  destruct (_execute_optimizations Scripted.dev ScriptedRuns.four_categorized
              true
              (Scripted.start
                 (Scripted.script_with (Ok (Scripted.failed "quota")))))
    as [[results|e] w'] eqn:Hrun; [|by vm_compute in Hrun].
  destruct (execute_logs_every_decision _ _ _ _ _ _ Hrun)
    as (lines & Hlog & Hlength & Happlied & _).
  exists lines. split; [exact Hlog |]. split; [exact Hlength | exact Happlied].
Defined.
